(** * vibe-list relay server: OAuth state correlation and AI proxy guards

    A shallow embedding of [server.js] (the Express relay of the vibe-list
    repository) and of its later revision with the JSON-safe playlist
    handler.  JavaScript values, the transaction map [txns], the request
    handlers and the token-exchange helpers are transcribed as executable
    definitions; the effects of a handler (map accesses, [crypto.randomBytes],
    [fetch], the generative-AI call) are threaded through a small
    state-and-log monad. *)

From Stdlib Require Import ZArith Ascii String List Lia.
From stdpp Require Import base option strings gmap fin_maps.

Set Warnings "-register-all".

Local Open Scope Z_scope.
Local Open Scope string_scope.

(** ** JavaScript values *)

Module JS.

(** The JSON-shaped fragment of JavaScript values the server handles:
    request bodies, query strings, provider responses.  Numbers are the
    integer-valued ones; [VUndefined] is the value of a missing property. *)
Inductive value : Type :=
| VUndefined
| VNull
| VBool (b : bool)
| VNum (n : Z)
| VStr (s : string)
| VArr (items : list value)
| VObj (fields : list (string * value)).

(** ToBoolean: [undefined], [null], [false], [0] and [""] are falsy; every
    object and array is truthy. *)
Definition truthy (v : value) : bool :=
  match v with
  | VUndefined | VNull => false
  | VBool b => b
  | VNum n => negb (Z.eqb n 0)
  | VStr s => negb (String.eqb s "")
  | VArr _ | VObj _ => true
  end.

(** [a || b] *)
Definition or (a b : value) : value := if truthy a then a else b.

Fixpoint assoc (k : string) (fields : list (string * value)) : value :=
  match fields with
  | [] => VUndefined
  | (k', v) :: rest => if String.eqb k k' then v else assoc k rest
  end.

(** [v.k] for the property names this server reads ([error],
    [error_description], [access_token], the body fields, [inlineData], ...):
    reading a property of [undefined] or [null] throws a TypeError ([None]);
    primitives and arrays have no such property. *)
Definition get (v : value) (k : string) : option value :=
  match v with
  | VUndefined | VNull => None
  | VObj fields => Some (assoc k fields)
  | _ => Some VUndefined
  end.

(** [v?.k]: optional chaining never throws. *)
Definition get_opt (v : value) (k : string) : value :=
  match v with
  | VObj fields => assoc k fields
  | _ => VUndefined
  end.

(** [v?.[0]] *)
Definition first_opt (v : value) : value :=
  match v with
  | VArr (x :: _) => x
  | VStr (String c _) => VStr (String c EmptyString)
  | VObj fields => assoc "0" fields
  | _ => VUndefined
  end.

(** A query-string or environment entry as a value: absent is [undefined]. *)
Definition of_option (o : option string) : value :=
  match o with
  | Some s => VStr s
  | None => VUndefined
  end.

End JS.

Import JS.

(** Truthiness of an optional string ([req.query.x], [process.env.X]):
    present and non-empty. *)
Definition present (o : option string) : bool := truthy (of_option o).

(** ** String matching used by the handlers *)

Module Str.

Definition lower (c : ascii) : ascii :=
  let n := nat_of_ascii c in
  if ((65 <=? n) && (n <=? 90))%nat then ascii_of_nat (n + 32) else c.

(** Strip the literal [p], compared case-insensitively (the [i] flag). *)
Fixpoint strip_prefix_ci (p s : string) : option string :=
  match p, s with
  | EmptyString, _ => Some s
  | String a p', String b s' =>
      if Ascii.eqb (lower a) (lower b) then strip_prefix_ci p' s' else None
  | String _ _, EmptyString => None
  end.

(** Line terminators, which [.] does not match. *)
Definition is_line_terminator (c : ascii) : bool :=
  let n := nat_of_ascii c in ((n =? 10) || (n =? 13))%nat.

(** [\s], which is also what [trim()] removes (code units below 256). *)
Definition is_space (c : ascii) : bool :=
  let n := nat_of_ascii c in
  (((9 <=? n) && (n <=? 13)) || (n =? 32) || (n =? 160))%nat.

(** [.+] anchored at the current position: one character that is not a line
    terminator is enough, the pattern has no end anchor. *)
Definition dot_plus (s : string) : bool :=
  match s with
  | String c _ => negb (is_line_terminator c)
  | EmptyString => false
  end.

Definition after (p : string) (k : string -> bool) (s : string) : bool :=
  match strip_prefix_ci p s with
  | Some rest => k rest
  | None => false
  end.

(** [/^https?:\/\/.+/i.test(s)]: the optional [s] is tried first, then
    skipped. *)
Definition test_http_url (s : string) : bool :=
  after "http" (fun r => after "s" (after "://" dot_plus) r
                         || after "://" dot_plus r) s.

Fixpoint trim_start (s : string) : string :=
  match s with
  | String c s' => if is_space c then trim_start s' else s
  | EmptyString => EmptyString
  end.

Fixpoint rev_onto (s acc : string) : string :=
  match s with
  | String c s' => rev_onto s' (String c acc)
  | EmptyString => acc
  end.

Definition rev (s : string) : string := rev_onto s EmptyString.

Definition trim_end (s : string) : string := rev (trim_start (rev s)).

(** [s.trim()] *)
Definition trim (s : string) : string := trim_end (trim_start s).

Fixpoint strip_prefix (p s : string) : option string :=
  match p, s with
  | EmptyString, _ => Some s
  | String a p', String b s' =>
      if Ascii.eqb a b then strip_prefix p' s' else None
  | String _ _, EmptyString => None
  end.

Definition strip_suffix (p s : string) : option string :=
  match strip_prefix (rev p) (rev s) with
  | Some r => Some (rev r)
  | None => None
  end.

(** [s.match(/^```(?:json)?\s*([\s\S]*?)\s*```$/i)], giving the captured
    group.  The string has to open and close with three backticks; [json]
    after the opening fence is consumed when it is there (skipping it instead
    cannot turn a failure into a match, the closing fence being looked for at
    the very end); the greedy [\s*] takes all leading white space, and the
    lazy group stops as soon as only white space and the closing fence are
    left. *)
Definition match_fence (s : string) : option string :=
  match strip_prefix "```" s with
  | None => None
  | Some r =>
      let r1 := match strip_prefix_ci "json" r with Some x => x | None => r end in
      match strip_suffix "```" (trim_start r1) with
      | None => None
      | Some inner => Some (trim_end inner)
      end
  end.

End Str.

(** ** Configuration, requests and responses *)

(** [process.env]: every entry may be unset. *)
Record ProcessEnv := {
  SPOTIFY_CLIENT_ID : option string;
  SPOTIFY_CLIENT_SECRET : option string;
  SPOTIFY_REDIRECT_URI : option string;
  GOOGLE_CLIENT_ID : option string;
  GOOGLE_CLIENT_SECRET : option string;
  GOOGLE_REDIRECT_URI : option string;
  GEMINI_API_KEY : option string;
  GOOGLE_API_KEY : option string
}.

Record ProviderCfg := {
  auth : string;
  token : string;
  clientId : option string;
  clientSecret : option string;
  redirectUri : option string;
  scope : string
}.

(** An unset entry is [undefined]; where a string is required
    ([searchParams.set], string concatenation, [URLSearchParams]) it is
    converted to the text [undefined]. *)
Definition to_string (o : option string) : string := default "undefined" o.

(** A URL object: the part before the query, and [searchParams]. *)
Record URL := { url_base : string; searchParams : list (string * string) }.

(** [new URL(s)] for the two authorization endpoints, which have no query. *)
Definition new_URL (s : string) : URL := {| url_base := s; searchParams := [] |}.

(** [searchParams.set(k, v)]: replaces the first pair named [k] and drops the
    others, or appends. *)
Fixpoint params_set (k v : string) (ps : list (string * string)) : list (string * string) :=
  match ps with
  | [] => [(k, v)]
  | (k', v') :: rest =>
      if String.eqb k k'
      then (k, v) :: filter (fun p => negb (String.eqb (fst p) k)) rest
      else (k', v') :: params_set k v rest
  end.

Definition set_param (k v : string) (u : URL) : URL :=
  {| url_base := url_base u; searchParams := params_set k v (searchParams u) |}.

(** The value stored in [txns]: [{ redirect }]. *)
Record Txn := { redirect : string }.

(** The arguments of [fetch(url, { method, headers, body })]; [fr_body] is
    the [URLSearchParams] body, a form-encoded list of pairs. *)
Record FetchRequest := {
  fr_url : string;
  fr_method : string;
  fr_headers : list (string * string);
  fr_body : list (string * string)
}.

(** What the token endpoint does: the request fails, or a response arrives
    with its status and its body as [r.json()] reads it ([None]: the body is
    not JSON and [r.json()] rejects). *)
Inductive FetchOutcome :=
| FetchRejects
| FetchResponds (status : Z) (json : option value).

(** [r.ok] *)
Definition ok (status : Z) : bool := (200 <=? status)%Z && (status <=? 299)%Z.

(** A call of the generative model: model name, the rendered prompt, the
    inline image ([data], [mimeType]) when one is sent, and whether JSON
    output is requested. *)
Record GenRequest := {
  gr_model : string;
  gr_prompt : string;
  gr_image : option (value * value);
  gr_json : bool
}.

(** The call throws with [error.message], or answers with the response
    object and its text ([None]: no text). *)
Inductive GenOutcome :=
| GenRejects (message : string)
| GenResponds (response : value) (text : option string).

(** The prompts built with template literals. *)
Inductive Prompt :=
| AlbumCoverPrompt (mood styles : value)
| SelfiePrompt (prompt : value)
| PlaylistPrompt (mood albumPrompt playlistLength : value)
| PlaylistJsonPrompt (mood albumPrompt playlistLength : value).

(** Library functions of the runtime, outside the repository. *)
Record Platform := {
  (** [new URL(s).origin]; [None] when the constructor throws. *)
  URL_origin : string -> option string;
  (** [Buffer.from(s).toString("base64")] *)
  base64 : string -> string;
  (** [JSON.parse]; [None] when it throws. *)
  JSON_parse : string -> option value;
  (** Template-literal rendering of a prompt, with [Array.prototype.join]
      on the style lists; [None] when it throws (a style entry with a
      positive [length] that is not an array). *)
  render : Prompt -> option string
}.

Inductive RelayMessage :=
| AuthSuccessful
| AuthFailed (error : value).

(** What a handler can throw: reading a property of [null] or [undefined],
    a failed [fetch], a body that is not JSON, an invalid URL, an [Error]
    with its message, and the [Error] raised when image generation stopped
    for the given reason. *)
Inductive Exn :=
| TypeError
| FetchFailed
| InvalidJSON
| InvalidURL
| Error (message : string)
| GenerationStopped (finishReason : value).

(** Response bodies: plain text, a JSON value, the JSON object
    [{ error: prefix + cause.message }], upstream text sent with a JSON
    content type, the fixed invalid-state page, and the relay page, which
    shows [message] and runs
    [window.opener.postMessage(result, targetOrigin)]. *)
Inductive Body :=
| BText (s : string)
| BJson (v : value)
| BJsonError (prefix : string) (cause : Exn)
| BJsonText (s : string)
| BInvalidState
| BRelay (message : RelayMessage) (result : value) (targetOrigin : string).

Inductive Response :=
| Respond (status : Z) (body : Body)
| RedirectTo (location : URL).

(** ** Effects *)

Inductive Event :=
| EvGet (state : string)
| EvSet (state : string) (txn : Txn)
| EvDelete (state : string)
| EvRandomBytes (n : Z)
| EvFetch (req : FetchRequest)
| EvGenerate (req : GenRequest).

(** A handler that throws outside a [try] sends no response: it is an async
    function, its promise rejects, and Express 4 does not look at it. *)
Inductive result (A : Type) :=
| Ok (a : A)
| Throw (e : Exn).
Arguments Ok {A} a.
Arguments Throw {A} e.

(** What one request meets: the bytes [crypto.randomBytes(16)] returns, in
    hex, and the answers of the two remote services. *)
Record Env := {
  env_randomHex : string;
  env_fetch : FetchRequest -> FetchOutcome;
  env_generate : GenRequest -> GenOutcome
}.

Abbreviation Store := (gmap string Txn).

(** A computation reads the environment, transforms [txns] and logs its
    effects in order. *)
Definition M (A : Type) : Type := Env -> Store -> list Event * Store * result A.

Definition ret {A} (a : A) : M A := fun _ txns => ([], txns, Ok a).

Definition throw {A} (e : Exn) : M A := fun _ txns => ([], txns, Throw e).

Definition bind {A B} (m : M A) (k : A -> M B) : M B :=
  fun env txns =>
    match m env txns with
    | (log1, txns1, Ok a) =>
        match k a env txns1 with
        | (log2, txns2, r) => ((log1 ++ log2)%list, txns2, r)
        end
    | (log1, txns1, Throw e) => (log1, txns1, Throw e)
    end.

(** [try { m } catch (error) { h error }] *)
Definition try_catch {A} (m : M A) (h : Exn -> M A) : M A :=
  fun env txns =>
    match m env txns with
    | (log1, txns1, Throw e) =>
        match h e env txns1 with
        | (log2, txns2, r) => ((log1 ++ log2)%list, txns2, r)
        end
    | other => other
    end.

Declare Scope js_scope.
Delimit Scope js_scope with js.
Notation "'let*' x := m 'in' k" := (bind m (fun x => k))
  (at level 10, x name, m at level 100, k at level 200) : js_scope.
Notation "m ;;; k" := (bind m (fun _ => k))
  (at level 100, k at level 200, right associativity) : js_scope.
Local Open Scope js_scope.

(** A value that may throw a TypeError when computed. *)
Definition or_throw {A} (e : Exn) (o : option A) : M A :=
  match o with
  | Some a => ret a
  | None => throw e
  end.

Definition txns_get (state : string) : M (option Txn) :=
  fun _ txns => ([EvGet state], txns, Ok (txns !! state)).

Definition txns_set (state : string) (txn : Txn) : M unit :=
  fun _ txns => ([EvSet state txn], <[state := txn]> txns, Ok tt).

Definition txns_delete (state : string) : M unit :=
  fun _ txns => ([EvDelete state], delete state txns, Ok tt).

(** [crypto.randomBytes(n).toString("hex")] *)
Definition randomBytes_hex (n : Z) : M string :=
  fun env txns => ([EvRandomBytes n], txns, Ok (env_randomHex env)).

(** [await fetch(...)]: the status and the body as [r.json()] will read it. *)
Definition fetch (req : FetchRequest) : M (Z * option value) :=
  fun env txns =>
    match env_fetch env req with
    | FetchRejects => ([EvFetch req], txns, Throw FetchFailed)
    | FetchResponds status json => ([EvFetch req], txns, Ok (status, json))
    end.

Definition generateContent (req : GenRequest) : M (value * option string) :=
  fun env txns =>
    match env_generate env req with
    | GenRejects msg => ([EvGenerate req], txns, Throw (Error msg))
    | GenResponds response text => ([EvGenerate req], txns, Ok (response, text))
    end.

(** ** server.js: the OAuth relay *)

(** [req.query] of the three OAuth routes.  A parameter is a string when it
    is there; repeated or bracketed parameters, which the query parser turns
    into arrays and objects, are not modelled. *)
Record StartQuery := { q_provider : option string; q_redirect : option string }.

Record CallbackQuery := {
  q_code : option string;
  q_state : option string;
  q_error : option string
}.

Section Relay.

Context (P : Platform) (penv : ProcessEnv).

Definition cfg_spotify : ProviderCfg := {|
  auth := "https://accounts.spotify.com/authorize";
  token := "https://accounts.spotify.com/api/token";
  clientId := SPOTIFY_CLIENT_ID penv;
  clientSecret := SPOTIFY_CLIENT_SECRET penv;
  redirectUri := SPOTIFY_REDIRECT_URI penv;
  scope := "playlist-modify-public playlist-modify-private ugc-image-upload"
|}.

Definition cfg_google : ProviderCfg := {|
  auth := "https://accounts.google.com/o/oauth2/v2/auth";
  token := "https://oauth2.googleapis.com/token";
  clientId := GOOGLE_CLIENT_ID penv;
  clientSecret := GOOGLE_CLIENT_SECRET penv;
  redirectUri := GOOGLE_REDIRECT_URI penv;
  scope := "https://www.googleapis.com/auth/youtube"
|}.

(** [["spotify","google"].includes(provider)] *)
Definition known_provider (provider : option string) : bool :=
  match provider with
  | Some p => String.eqb p "spotify" || String.eqb p "google"
  | None => false
  end.

Definition spotify_auth_url (state : string) : URL :=
  let u := new_URL (auth cfg_spotify) in
  let u := set_param "response_type" "code" u in
  let u := set_param "client_id" (to_string (clientId cfg_spotify)) u in
  let u := set_param "redirect_uri" (to_string (redirectUri cfg_spotify)) u in
  let u := set_param "scope" (scope cfg_spotify) u in
  let u := set_param "state" state u in
  let u := set_param "show_dialog" "true" u in
  u.

Definition google_auth_url (state : string) : URL :=
  let u := new_URL (auth cfg_google) in
  let u := set_param "response_type" "code" u in
  let u := set_param "client_id" (to_string (clientId cfg_google)) u in
  let u := set_param "redirect_uri" (to_string (redirectUri cfg_google)) u in
  let u := set_param "scope" (scope cfg_google) u in
  let u := set_param "access_type" "offline" u in
  let u := set_param "prompt" "consent" u in
  let u := set_param "state" state u in
  u.

(** [app.get("/oauth/start", ...)] *)
Definition oauth_start (q : StartQuery) : M Response :=
  if negb (known_provider (q_provider q)) then ret (Respond 400 (BText "bad provider"))
  else
    match q_redirect q with
    | None => ret (Respond 400 (BText "bad redirect"))
    | Some redirect =>
        if negb (present (Some redirect)) || negb (Str.test_http_url redirect)
        then ret (Respond 400 (BText "bad redirect"))
        else
          let* state := randomBytes_hex 16 in
          txns_set state {| redirect := redirect |} ;;;
          if decide (q_provider q = Some "spotify")
          then ret (RedirectTo (spotify_auth_url state))
          else ret (RedirectTo (google_auth_url state))
    end.

Definition exchange_error (data : value) (fallback : string) : M value :=
  let* description := or_throw TypeError (JS.get data "error_description") in
  let* error := or_throw TypeError (JS.get data "error") in
  ret (VObj [("error", JS.or description (JS.or error (VStr fallback)))]).

Definition spotify_token_request (code : string) : FetchRequest := {|
  fr_url := token cfg_spotify;
  fr_method := "POST";
  fr_headers :=
    [("Content-Type", "application/x-www-form-urlencoded");
     ("Authorization",
      "Basic " +:+ base64 P (to_string (clientId cfg_spotify) +:+ ":"
                             +:+ to_string (clientSecret cfg_spotify)))];
  fr_body :=
    [("grant_type", "authorization_code");
     ("code", code);
     ("redirect_uri", to_string (redirectUri cfg_spotify))]
|}.

Definition google_token_request (code : string) : FetchRequest := {|
  fr_url := token cfg_google;
  fr_method := "POST";
  fr_headers := [("Content-Type", "application/x-www-form-urlencoded")];
  fr_body :=
    [("grant_type", "authorization_code");
     ("code", code);
     ("client_id", to_string (clientId cfg_google));
     ("client_secret", to_string (clientSecret cfg_google));
     ("redirect_uri", to_string (redirectUri cfg_google))]
|}.

(** [async function exchangeSpotify(code)] *)
Definition exchangeSpotify (code : string) : M value :=
  let* r := fetch (spotify_token_request code) in
  let* data := or_throw InvalidJSON (snd r) in
  if negb (ok (fst r))
  then exchange_error data "Failed to exchange token with Spotify"
  else ret data.

(** [async function exchangeGoogle(code)] *)
Definition exchangeGoogle (code : string) : M value :=
  let* r := fetch (google_token_request code) in
  let* data := or_throw InvalidJSON (snd r) in
  if negb (ok (fst r))
  then exchange_error data "Failed to exchange token with Google"
  else ret data.

(** [function finish(res, state, data, provider, isError = false)] *)
Definition finish (state : string) (data : value) (provider : string) (isError : bool)
  : M Response :=
  let* txn := txns_get state in
  match txn with
  | None => ret (Respond 400 BInvalidState)
  | Some txn =>
      txns_delete state ;;;
      let* result :=
        if isError
        then
          let* error := or_throw TypeError (JS.get data "error") in
          ret (VObj [("provider", VStr provider);
                     ("error", JS.or error (VStr "An unknown error occurred."))])
        else
          let* access_token := or_throw TypeError (JS.get data "access_token") in
          ret (VObj [("provider", VStr provider); ("token", access_token)]) in
      let* targetOrigin := or_throw InvalidURL (URL_origin P (redirect txn)) in
      let message :=
        if isError then AuthFailed (JS.get_opt result "error") else AuthSuccessful in
      ret (Respond 200 (BRelay message result targetOrigin))
  end.

(** [app.get("/callback/spotify", ...)] *)
Definition callback_spotify (q : CallbackQuery) : M Response :=
  match q_state q with
  | None => ret (Respond 400 (BText "Missing state from Spotify callback."))
  | Some state =>
      if negb (present (Some state))
      then ret (Respond 400 (BText "Missing state from Spotify callback."))
      else if present (q_error q)
      then finish state (VObj [("error", of_option (q_error q))]) "spotify" true
      else
        match q_code q with
        | Some code =>
            if negb (present (Some code))
            then finish state (VObj [("error", VStr "Missing code from Spotify callback.")])
                   "spotify" true
            else
              let* tokens := exchangeSpotify code in
              let* error := or_throw TypeError (JS.get tokens "error") in
              let* access_token := or_throw TypeError (JS.get tokens "access_token") in
              if truthy error || negb (truthy access_token)
              then finish state (VObj [("error", error)]) "spotify" true
              else finish state tokens "spotify" false
        | None =>
            finish state (VObj [("error", VStr "Missing code from Spotify callback.")])
              "spotify" true
        end
  end.

(** [app.get("/callback/google", ...)] *)
Definition callback_google (q : CallbackQuery) : M Response :=
  match q_state q with
  | None => ret (Respond 400 (BText "Missing state from Google callback."))
  | Some state =>
      if negb (present (Some state))
      then ret (Respond 400 (BText "Missing state from Google callback."))
      else if present (q_error q)
      then finish state (VObj [("error", of_option (q_error q))]) "google" true
      else
        match q_code q with
        | Some code =>
            if negb (present (Some code))
            then finish state (VObj [("error", VStr "Missing code from Google callback.")])
                   "google" true
            else
              let* tokens := exchangeGoogle code in
              let* error := or_throw TypeError (JS.get tokens "error") in
              let* access_token := or_throw TypeError (JS.get tokens "access_token") in
              if truthy error || negb (truthy access_token)
              then finish state (VObj [("error", error)]) "google" true
              else finish state tokens "google" false
        | None =>
            finish state (VObj [("error", VStr "Missing code from Google callback.")])
              "google" true
        end
  end.

End Relay.

(** ** server.js: the AI proxy endpoints *)

Definition error_body (message : string) : Body := BJson (VObj [("error", VStr message)]).

Section AI.

Context (P : Platform) (penv : ProcessEnv).

(** [const genAI = geminiApiKey ? new GoogleGenAI(geminiApiKey) : null],
    tested as [!genAI]. *)
Definition genAI : bool := present (GEMINI_API_KEY penv).

(** [const { k } = req.body] *)
Definition field (body : value) (k : string) : M value :=
  or_throw TypeError (JS.get body k).

(** [app.post("/generate-album-cover-prompt", ...)] *)
Definition generate_album_cover_prompt (body : value) : M Response :=
  if negb genAI then ret (Respond 503 (error_body "AI service not configured."))
  else
    let* imageData := field body "imageData" in
    let* imageMimeType := field body "imageMimeType" in
    let* mood := field body "mood" in
    let* styles := field body "styles" in
    if negb (truthy imageData) || negb (truthy imageMimeType)
       || negb (truthy mood) || negb (truthy styles)
    then ret (Respond 400 (error_body "Missing parameters."))
    else
      try_catch
        (let* prompt := or_throw TypeError (render P (AlbumCoverPrompt mood styles)) in
         let* result := generateContent
           {| gr_model := "gemini-2.5-flash"; gr_prompt := prompt;
              gr_image := Some (imageData, imageMimeType); gr_json := false |} in
         match snd result with
         | Some generatedText =>
             if negb (truthy (VStr generatedText))
             then throw (Error "The AI response did not contain any text.")
             else ret (Respond 200 (BJson (VObj [("prompt", VStr generatedText)])))
         | None => throw (Error "The AI response did not contain any text.")
         end)
        (fun _ => ret (Respond 500 (error_body "Error generating album cover prompt."))).

(** [app.post("/edit-selfie-into-album-cover", ...)] *)
Definition edit_selfie_into_album_cover (body : value) : M Response :=
  if negb genAI then ret (Respond 503 (error_body "AI service not configured."))
  else
    let* imageData := field body "imageData" in
    let* imageMimeType := field body "imageMimeType" in
    let* prompt := field body "prompt" in
    if negb (truthy imageData) || negb (truthy imageMimeType) || negb (truthy prompt)
    then ret (Respond 400 (error_body "Missing parameters."))
    else
      try_catch
        (let* textPart := or_throw TypeError (render P (SelfiePrompt prompt)) in
         let* result := generateContent
           {| gr_model := "gemini-2.5-flash"; gr_prompt := textPart;
              gr_image := Some (imageData, imageMimeType); gr_json := false |} in
         let response := fst result in
         let candidate := JS.first_opt (JS.get_opt response "candidates") in
         let part := JS.first_opt (JS.get_opt (JS.get_opt candidate "content") "parts") in
         if truthy part && truthy (JS.get_opt part "inlineData")
         then
           let inlineData := JS.get_opt part "inlineData" in
           ret (Respond 200 (BJson (VObj [("imageData", JS.get_opt inlineData "data");
                                          ("mimeType", JS.get_opt inlineData "mimeType")])))
         else
           let finishReason := JS.get_opt candidate "finishReason" in
           if truthy finishReason
              && negb (if finishReason is VStr "STOP" then true else false)
           then throw (GenerationStopped finishReason)
           else throw (Error "No image was generated by the model. The response may have been empty or blocked."))
        (fun error =>
           ret (Respond 500 (BJsonError "Error editing selfie into album cover: " error))).

(** [app.post("/generate-playlist-vibe", ...)] *)
Definition generate_playlist_vibe (body : value) : M Response :=
  if negb genAI then ret (Respond 503 (error_body "AI service not configured."))
  else
    let* mood := field body "mood" in
    let* albumPrompt := field body "albumPrompt" in
    let* playlistLength := field body "playlistLength" in
    if negb (truthy mood) || negb (truthy albumPrompt) || negb (truthy playlistLength)
    then ret (Respond 400 (error_body "Missing parameters."))
    else
      try_catch
        (let* prompt :=
           or_throw TypeError (render P (PlaylistPrompt mood albumPrompt playlistLength)) in
         let* result := generateContent
           {| gr_model := "gemini-2.5-flash"; gr_prompt := prompt;
              gr_image := None; gr_json := false |} in
         match snd result with
         | Some generatedText =>
             if negb (truthy (VStr generatedText))
             then throw (Error "The AI response did not contain any text.")
             else ret (Respond 200 (BJsonText generatedText))
         | None => throw (Error "The AI response did not contain any text.")
         end)
        (fun _ => ret (Respond 500 (error_body "Error generating playlist vibe."))).

End AI.

(** ** The later revision of server.js: JSON-safe playlist vibe *)

Module JsonSafe.

Section AI.

Context (P : Platform) (penv : ProcessEnv).

(** [const geminiApiKey = process.env.GEMINI_API_KEY || process.env.GOOGLE_API_KEY;
     const ai = geminiApiKey ? new GoogleGenAI({ apiKey: geminiApiKey }) : null] *)
Definition ai : bool :=
  truthy (JS.or (of_option (GEMINI_API_KEY penv)) (of_option (GOOGLE_API_KEY penv))).

(** [resp.text?.trim() || ""], then the fence is stripped:
    [if (m) jsonText = m[1].trim()]. *)
Definition json_text (text : option string) : string :=
  let jsonText := match text with Some t => Str.trim t | None => "" end in
  match Str.match_fence jsonText with
  | Some group => Str.trim group
  | None => jsonText
  end.

(** [app.post("/generate-playlist-vibe", ...)] *)
Definition generate_playlist_vibe (body : value) : M Response :=
  if negb ai then ret (Respond 503 (error_body "AI service not configured."))
  else
    let body := JS.or body (VObj []) in
    let mood := JS.get_opt body "mood" in
    let albumPrompt := JS.get_opt body "albumPrompt" in
    let playlistLength := JS.get_opt body "playlistLength" in
    if negb (truthy mood) || negb (truthy albumPrompt) || negb (truthy playlistLength)
    then ret (Respond 400 (error_body "Missing parameters."))
    else
      try_catch
        (let* prompt :=
           or_throw TypeError (render P (PlaylistJsonPrompt mood albumPrompt playlistLength)) in
         let* resp := generateContent
           {| gr_model := "gemini-2.5-flash"; gr_prompt := prompt;
              gr_image := None; gr_json := true |} in
         let jsonText := json_text (snd resp) in
         match JSON_parse P jsonText with
         | None => ret (Respond 502 (error_body "Model did not return valid JSON."))
         | Some data => ret (Respond 200 (BJson data))
         end)
        (fun _ => ret (Respond 500 (error_body "Error generating playlist vibe."))).

End AI.

End JsonSafe.

(** * Descriptions of runs, and concrete inputs *)

(** ** Closed forms of [finish], the exchange helpers and the callbacks *)

(** The object posted to the opener: [{ provider, error }] or
    [{ provider, token }]; [None] when reading [data] throws. *)
Definition finish_result (data : value) (provider : string) (isError : bool) : option value :=
  if isError
  then error ← JS.get data "error";
       Some (VObj [("provider", VStr provider);
                   ("error", JS.or error (VStr "An unknown error occurred."))])
  else access_token ← JS.get data "access_token";
       Some (VObj [("provider", VStr provider); ("token", access_token)]).

Definition finish_message (result : value) (isError : bool) : RelayMessage :=
  if isError then AuthFailed (JS.get_opt result "error") else AuthSuccessful.

Definition finish_outcome (P : Platform) (txn : Txn) (data : value) (provider : string)
    (isError : bool) : result Response :=
  match finish_result data provider isError with
  | None => Throw TypeError
  | Some result =>
      match URL_origin P (redirect txn) with
      | None => Throw InvalidURL
      | Some targetOrigin =>
          Ok (Respond 200 (BRelay (finish_message result isError) result targetOrigin))
      end
  end.

(** [{ error: data.error_description || data.error || fallback }] *)
Definition exchange_error_value (data : value) (fallback : string) : option value :=
  description ← JS.get data "error_description";
  error ← JS.get data "error";
  Some (VObj [("error", JS.or description (JS.or error (VStr fallback)))]).

Definition exchange_outcome (out : FetchOutcome) (fallback : string) : result value :=
  match out with
  | FetchRejects => Throw FetchFailed
  | FetchResponds _ None => Throw InvalidJSON
  | FetchResponds status (Some data) =>
      if ok status then Ok data
      else match exchange_error_value data fallback with
           | Some v => Ok v
           | None => Throw TypeError
           end
  end.

(** The effects [log] happened before the run [r]. *)
Definition preceded_by {A} (log : list Event) (r : list Event * Store * result A)
  : list Event * Store * result A :=
  match r with
  | (log', txns, out) => ((log ++ log')%list, txns, out)
  end.

(** The four ways through a callback handler.  A query parameter counts when
    it is truthy: an empty [state], [error] or [code] is treated as absent. *)
Inductive CallbackPath :=
| MissingState
| ProviderError (state : string) (error : value)
| MissingCode (state : string)
| Exchange (state code : string).

Definition callback_path (q : CallbackQuery) : CallbackPath :=
  match q_state q with
  | None => MissingState
  | Some state =>
      if negb (present (Some state)) then MissingState
      else if present (q_error q) then ProviderError state (of_option (q_error q))
      else match q_code q with
           | None => MissingCode state
           | Some code => if negb (present (Some code)) then MissingCode state
                          else Exchange state code
           end
  end.

(** What a handler does once the exchange helper has answered [tokens]. *)
Definition after_exchange (P : Platform) (provider state : string) (tokens : value)
  : M Response :=
  match JS.get tokens "error", JS.get tokens "access_token" with
  | Some error, Some access_token =>
      if truthy error || negb (truthy access_token)
      then finish P state (VObj [("error", error)]) provider true
      else finish P state tokens provider false
  | _, _ => throw TypeError
  end.

Definition callback_behaviour (P : Platform) (provider missing_state missing_code : string)
    (request : string -> FetchRequest) (fallback : string)
    (q : CallbackQuery) (env : Env) (txns : Store) : list Event * Store * result Response :=
  match callback_path q with
  | MissingState => ([], txns, Ok (Respond 400 (BText missing_state)))
  | ProviderError state error => finish P state (VObj [("error", error)]) provider true env txns
  | MissingCode state =>
      finish P state (VObj [("error", VStr missing_code)]) provider true env txns
  | Exchange state code =>
      match exchange_outcome (env_fetch env (request code)) fallback with
      | Throw e => ([EvFetch (request code)], txns, Throw e)
      | Ok tokens =>
          preceded_by [EvFetch (request code)] (after_exchange P provider state tokens env txns)
      end
  end.

(** ** A relay with one pending transaction *)

Module Demo.

Definition dq : string := String (ascii_of_nat 34) EmptyString.

(** [{"songs":[]}] *)
Definition no_songs_text : string := "{" +:+ dq +:+ "songs" +:+ dq +:+ ":[]}".

(** The runtime functions, tabulated on the inputs used below. *)
Definition platform : Platform := {|
  URL_origin := fun s =>
    if String.eqb s "https://app.example.com/done" then Some "https://app.example.com"
    else None;
  base64 := fun s => if String.eqb s "id:secret" then "aWQ6c2VjcmV0" else "";
  JSON_parse := fun s =>
    if String.eqb s "[1,2]" then Some (VArr [VNum 1; VNum 2])
    else if String.eqb s no_songs_text then Some (VObj [("songs", VArr [])])
    else None;
  render := fun _ => Some "prompt"
|}.

Definition penv : ProcessEnv := {|
  SPOTIFY_CLIENT_ID := Some "id";
  SPOTIFY_CLIENT_SECRET := Some "secret";
  SPOTIFY_REDIRECT_URI := Some "https://relay.example.com/callback/spotify";
  GOOGLE_CLIENT_ID := Some "id";
  GOOGLE_CLIENT_SECRET := Some "secret";
  GOOGLE_REDIRECT_URI := Some "https://relay.example.com/callback/google";
  GEMINI_API_KEY := Some "key";
  GOOGLE_API_KEY := None
|}.

(** No credential for the AI service. *)
Definition penv_no_ai : ProcessEnv := {|
  SPOTIFY_CLIENT_ID := Some "id";
  SPOTIFY_CLIENT_SECRET := Some "secret";
  SPOTIFY_REDIRECT_URI := Some "https://relay.example.com/callback/spotify";
  GOOGLE_CLIENT_ID := Some "id";
  GOOGLE_CLIENT_SECRET := Some "secret";
  GOOGLE_REDIRECT_URI := Some "https://relay.example.com/callback/google";
  GEMINI_API_KEY := None;
  GOOGLE_API_KEY := None
|}.

(** An environment in which the token endpoint answers [fetched] and the
    model answers [generated]. *)
Definition env (hex : string) (fetched : FetchOutcome) (generated : GenOutcome) : Env := {|
  env_randomHex := hex;
  env_fetch := fun _ => fetched;
  env_generate := fun _ => generated
|}.

Definition quiet (hex : string) : Env := env hex FetchRejects (GenRejects "offline").

Definition pending : Store :=
  {[ "5f2a" := {| redirect := "https://app.example.com/done" |} ]}.

Definition start_query : StartQuery :=
  {| q_provider := Some "spotify"; q_redirect := Some "https://app.example.com/done" |}.

Definition denied : CallbackQuery :=
  {| q_code := None; q_state := Some "5f2a"; q_error := Some "access_denied" |}.

Definition with_code : CallbackQuery :=
  {| q_code := Some "AQB7"; q_state := Some "5f2a"; q_error := None |}.

End Demo.

(** ** The routes of server.js, and runs of several requests *)

Inductive Request :=
| GenerateAlbumCoverPrompt (body : value)
| EditSelfieIntoAlbumCover (body : value)
| GeneratePlaylistVibe (body : value)
| OAuthStart (q : StartQuery)
| CallbackSpotify (q : CallbackQuery)
| CallbackGoogle (q : CallbackQuery)
| Root.

Definition serve (P : Platform) (penv : ProcessEnv) (r : Request) : M Response :=
  match r with
  | GenerateAlbumCoverPrompt body => generate_album_cover_prompt P penv body
  | EditSelfieIntoAlbumCover body => edit_selfie_into_album_cover P penv body
  | GeneratePlaylistVibe body => generate_playlist_vibe P penv body
  | OAuthStart q => oauth_start penv q
  | CallbackSpotify q => callback_spotify P penv q
  | CallbackGoogle q => callback_google P penv q
  | Root => ret (Respond 200 (BText "OK"))
  end.

(** [txns] after a computation has run. *)
Definition store_after {A} (r : list Event * Store * result A) : Store := snd (fst r).

Definition outcome {A} (r : list Event * Store * result A) : result A := snd r.

Definition effects {A} (r : list Event * Store * result A) : list Event := fst (fst r).

(** [txns] as the next request finds it.  A handler that throws is an async
    function whose rejection nobody handles: the node process exits, and with
    it the map; whatever serves the next request starts from
    [const txns = new Map()]. *)
Definition next_txns {A} (r : list Event * Store * result A) : Store :=
  match outcome r with
  | Ok _ => store_after r
  | Throw _ => ∅
  end.

(** The requests are served one after the other, each in its environment;
    handlers do not interleave between their map accesses.  After a handler
    that throws, the requests that follow find an empty [txns]. *)
Fixpoint serve_all (P : Platform) (penv : ProcessEnv) (rs : list (Request * Env))
    (txns : Store) : Store :=
  match rs with
  | [] => txns
  | (r, env) :: rest => serve_all P penv rest (next_txns (serve P penv r env txns))
  end.

(** Every request of the sequence is answered: no handler throws, so the
    process that started with [txns] serves the whole sequence. *)
Fixpoint all_answered (P : Platform) (penv : ProcessEnv) (rs : list (Request * Env))
    (txns : Store) : bool :=
  match rs with
  | [] => true
  | (r, env) :: rest =>
      match outcome (serve P penv r env txns) with
      | Ok _ => all_answered P penv rest (store_after (serve P penv r env txns))
      | Throw _ => false
      end
  end.

(** The request is an [/oauth/start] that draws [state]. *)
Definition issues (state : string) (re : Request * Env) : Prop :=
  match fst re with
  | OAuthStart _ => env_randomHex (snd re) = state
  | _ => False
  end.

(** Computations that leave [txns] as it is. *)
Definition keeps_store {A} (m : M A) : Prop :=
  forall env (txns : Store), store_after (m env txns) = txns.

Inductive Provider := Spotify | Google.

Definition provider_name (p : Provider) : string :=
  match p with Spotify => "spotify" | Google => "google" end.

Definition missing_state_message (p : Provider) : string :=
  match p with
  | Spotify => "Missing state from Spotify callback."
  | Google => "Missing state from Google callback."
  end.

Definition missing_code_message (p : Provider) : string :=
  match p with
  | Spotify => "Missing code from Spotify callback."
  | Google => "Missing code from Google callback."
  end.

Definition exchange_fallback (p : Provider) : string :=
  match p with
  | Spotify => "Failed to exchange token with Spotify"
  | Google => "Failed to exchange token with Google"
  end.

Definition token_request (P : Platform) (penv : ProcessEnv) (p : Provider) (code : string)
  : FetchRequest :=
  match p with
  | Spotify => spotify_token_request P penv code
  | Google => google_token_request penv code
  end.

Definition exchangeCode (P : Platform) (penv : ProcessEnv) (p : Provider) : string -> M value :=
  match p with
  | Spotify => exchangeSpotify P penv
  | Google => exchangeGoogle penv
  end.

(** The handler of [/callback/spotify] or [/callback/google]. *)
Definition callback (P : Platform) (penv : ProcessEnv) (p : Provider)
  : CallbackQuery -> M Response :=
  match p with
  | Spotify => callback_spotify P penv
  | Google => callback_google P penv
  end.

(** The request that reaches the handler [callback p]. *)
Definition callback_request (p : Provider) (q : CallbackQuery) : Request :=
  match p with
  | Spotify => CallbackSpotify q
  | Google => CallbackGoogle q
  end.

Definition is_fetch (ev : Event) : bool :=
  match ev with EvFetch _ => true | _ => false end.

(** How many token-exchange requests a run sent. *)
Definition exchanges {A} (r : list Event * Store * result A) : nat :=
  length (filter is_fetch (effects r)).

Module DemoCallback.

Definition tokens : value := VObj [("access_token", VStr "BQDx")].

(** The token endpoint grants a token. *)
Definition granting : Env := Demo.env "00" (FetchResponds 200 (Some tokens)) (GenRejects "offline").

(** [?code=AQB7&state=5f2a&error=]: the [error] parameter is there, empty. *)
Definition empty_error : CallbackQuery :=
  {| q_code := Some "AQB7"; q_state := Some "5f2a"; q_error := Some "" |}.

End DemoCallback.

(** [data.error_description || data.error || fallback] *)
Definition provider_error (data : value) (fallback : string) : value :=
  JS.or (JS.get_opt data "error_description") (JS.or (JS.get_opt data "error") (VStr fallback)).

Module DemoFailure.

Definition invalid_grant : value :=
  VObj [("error", VStr "invalid_grant");
        ("error_description", VStr "Invalid authorization code")].


(** A gateway in front of the token endpoint answers 502 with an HTML page. *)
Definition bad_gateway : Env := Demo.env "00" (FetchResponds 502 None) (GenRejects "offline").

End DemoFailure.

(** The request the revised handler sends to the model. *)
Definition playlist_json_request (prompt : string) : GenRequest :=
  {| gr_model := "gemini-2.5-flash"; gr_prompt := prompt; gr_image := None; gr_json := true |}.

(** [data.songs.length], when [songs] is an array. *)
Definition songs_count (data : value) : option nat :=
  match JS.get_opt data "songs" with
  | VArr songs => Some (length songs)
  | _ => None
  end.

(** The number of songs in the JSON value a handler answered with. *)
Definition returned_songs (out : result Response) : option nat :=
  match out with
  | Ok (Respond _ (BJson data)) => songs_count data
  | _ => None
  end.

Module DemoPlaylist.

(** [{ mood: "calm", albumPrompt: "a lake at dawn", playlistLength: 5 }] *)
Definition body : value :=
  VObj [("mood", VStr "calm"); ("albumPrompt", VStr "a lake at dawn");
        ("playlistLength", VNum 5)].

(** The model answers with fenced JSON. *)
Definition fenced : Env :=
  Demo.env "00" FetchRejects (GenResponds VNull (Some "```json [1,2] ```")).

(** The model answers with the well-formed JSON text [{"songs":[]}]. *)
Definition no_songs : Env :=
  Demo.env "00" FetchRejects (GenResponds VNull (Some Demo.no_songs_text)).

End DemoPlaylist.

Definition not_configured : Response :=
  Respond 503 (error_body "AI service not configured.").

Definition missing_parameters : Response :=
  Respond 400 (error_body "Missing parameters.").

Module DemoFalsy.

(** [{ mood: "calm", albumPrompt: "a lake at dawn", playlistLength: 0 }] *)
Definition zero_length : list (string * value) :=
  [("mood", VStr "calm"); ("albumPrompt", VStr "a lake at dawn"); ("playlistLength", VNum 0)].

End DemoFalsy.

(** ** The first revision of the relay: a redirect with [ok=1] *)

Module Legacy.

Section Relay.

(** [URL_parse] is [new URL(s)] for an arbitrary string: the URL with its
    query split into [searchParams], [None] when the constructor throws. *)
Context (P : Platform) (URL_parse : string -> option URL) (penv : ProcessEnv).

(** [async function exchangeSpotify(code)]: the body is returned whatever
    the status.  [code] comes straight from the query and may be
    [undefined]. *)
Definition exchangeSpotify (code : option string) : M value :=
  let* r := fetch (spotify_token_request P penv (to_string code)) in
  or_throw InvalidJSON (snd r).

(** [async function exchangeGoogle(code)] *)
Definition exchangeGoogle (code : option string) : M value :=
  let* r := fetch (google_token_request penv (to_string code)) in
  or_throw InvalidJSON (snd r).

(** [function finish(res, state, tokens)].  [txns.get(undefined)] finds
    nothing, the keys being strings. *)
Definition finish (state : option string) (tokens : value) : M Response :=
  match state with
  | None => ret (Respond 400 (BText "bad state"))
  | Some state =>
      let* txn := txns_get state in
      match txn with
      | None => ret (Respond 400 (BText "bad state"))
      | Some txn =>
          txns_delete state ;;;
          let* url := or_throw InvalidURL (URL_parse (redirect txn)) in
          ret (RedirectTo (set_param "ok" "1" url))
      end
  end.

(** [app.get("/callback/spotify", ...)] *)
Definition callback_spotify (q : CallbackQuery) : M Response :=
  let* tokens := exchangeSpotify (q_code q) in
  finish (q_state q) tokens.

(** [app.get("/callback/google", ...)] *)
Definition callback_google (q : CallbackQuery) : M Response :=
  let* tokens := exchangeGoogle (q_code q) in
  finish (q_state q) tokens.

End Relay.

End Legacy.

(** ** Notions used in the further properties *)

(** A run that answered with one of the given statuses. *)
Definition answered (statuses : list Z) (r : list Event * Store * result Response) : Prop :=
  exists status body, outcome r = Ok (Respond status body) /\ In status statuses.

(** A run whose only effect, if any, is one call of the model. *)
Definition calls_model_at_most_once (r : list Event * Store * result Response) : Prop :=
  effects r = [] \/ exists req, effects r = [EvGenerate req].

(** Every pending redirect matched [/^https?:\/\/.+/i] when it was stored. *)
Definition redirects_checked (txns : Store) : Prop :=
  forall state txn, txns !! state = Some txn -> Str.test_http_url (redirect txn) = true.

(** The request is a callback that carries [state]. *)
Definition consumes (state : string) (re : Request * Env) : Prop :=
  match fst re with
  | CallbackSpotify q | CallbackGoogle q => q_state q = Some state
  | _ => False
  end.

Fixpoint lower_string (s : string) : string :=
  match s with
  | EmptyString => EmptyString
  | String c s' => String (Str.lower c) (lower_string s')
  end.

(** The request [/generate-album-cover-prompt] sends to the model. *)
Definition album_request (prompt : string) (imageData imageMimeType : value) : GenRequest :=
  {| gr_model := "gemini-2.5-flash"; gr_prompt := prompt;
     gr_image := Some (imageData, imageMimeType); gr_json := false |}.

(** The request [/generate-playlist-vibe] of server.js sends to the model. *)
Definition playlist_request (prompt : string) : GenRequest :=
  {| gr_model := "gemini-2.5-flash"; gr_prompt := prompt; gr_image := None; gr_json := false |}.

(** [response?.candidates?.[0]] *)
Definition first_candidate (response : value) : value :=
  JS.first_opt (JS.get_opt response "candidates").

(** [candidate?.content?.parts?.[0]] *)
Definition first_part (response : value) : value :=
  JS.first_opt (JS.get_opt (JS.get_opt (first_candidate response) "content") "parts").

Definition album_failed : Response :=
  Respond 500 (error_body "Error generating album cover prompt.").

Definition playlist_failed : Response :=
  Respond 500 (error_body "Error generating playlist vibe.").

(** What [/edit-selfie-into-album-cover] answers once the model has
    responded. *)
Definition selfie_answer (response : value) : Response :=
  let part := first_part response in
  if truthy part && truthy (JS.get_opt part "inlineData")
  then Respond 200
         (BJson (VObj [("imageData", JS.get_opt (JS.get_opt part "inlineData") "data");
                       ("mimeType", JS.get_opt (JS.get_opt part "inlineData") "mimeType")]))
  else
    let finishReason := JS.get_opt (first_candidate response) "finishReason" in
    Respond 500
      (BJsonError "Error editing selfie into album cover: "
         (if truthy finishReason
             && negb (if finishReason is VStr "STOP" then true else false)
          then GenerationStopped finishReason
          else Error "No image was generated by the model. The response may have been empty or blocked.")).

(** Where the error text of a failure page comes from: the callback's own
    [error] parameter, the fixed text for a missing code, or the token
    endpoint's answer [data] (a failed exchange's description, error or
    generic message; a 2xx answer's [error], or the fixed text when it has
    none). *)
Definition relay_error_source (P : Platform) (penv : ProcessEnv) (p : Provider)
    (q : CallbackQuery) (env : Env) (error : value) : Prop :=
  (present (q_error q) = true /\ error = of_option (q_error q))
  \/ (present (q_error q) = false /\ present (q_code q) = false
      /\ error = VStr (missing_code_message p))
  \/ (exists code status data,
        present (q_error q) = false
        /\ q_code q = Some code
        /\ env_fetch env (token_request P penv p code) = FetchResponds status (Some data)
        /\ error = if ok status
                   then JS.or (JS.get_opt data "error") (VStr "An unknown error occurred.")
                   else provider_error data (exchange_fallback p)).

(** What a relay page posts to the opener.  A success page carries the
    provider's name and the [access_token] of the token endpoint's 2xx answer
    [data], and nothing else of it; a failure page carries the provider's
    name and an error text. *)
Definition relay_payload (P : Platform) (penv : ProcessEnv) (p : Provider)
    (q : CallbackQuery) (env : Env) (message : RelayMessage) (result : value) : Prop :=
  (exists code status data,
      q_code q = Some code
      /\ env_fetch env (token_request P penv p code) = FetchResponds status (Some data)
      /\ ok status = true
      /\ truthy (JS.get_opt data "error") = false
      /\ truthy (JS.get_opt data "access_token") = true
      /\ message = AuthSuccessful
      /\ result = VObj [("provider", VStr (provider_name p));
                        ("token", JS.get_opt data "access_token")])
  \/ (exists error,
        truthy error = true
        /\ message = AuthFailed error
        /\ result = VObj [("provider", VStr (provider_name p)); ("error", error)]
        /\ relay_error_source P penv p q env error).

(** No character of the pattern is a backtick. *)
Fixpoint no_backtick (p : string) : Prop :=
  match p with
  | EmptyString => True
  | String a p' => Str.lower a <> "`"%char /\ no_backtick p'
  end.

Definition playlist_unparsed : Response :=
  Respond 502 (error_body "Model did not return valid JSON.").

Module DemoMore.

(** A model answer whose first part is text and whose second part is the
    image. *)
Definition text_then_image : value :=
  VObj [("candidates",
         VArr [VObj [("content",
                      VObj [("parts",
                             VArr [VObj [("text", VStr "Here is your cover")];
                                   VObj [("inlineData",
                                          VObj [("data", VStr "iVBORw0KGgo=");
                                                ("mimeType", VStr "image/png")])]])]);
                     ("finishReason", VStr "STOP")]])].

Definition selfie_body : list (string * value) :=
  [("imageData", VStr "/9j/4AAQ"); ("imageMimeType", VStr "image/jpeg");
   ("prompt", VStr "neon city")].

Definition album_body : list (string * value) :=
  [("imageData", VStr "/9j/4AAQ"); ("imageMimeType", VStr "image/jpeg");
   ("mood", VStr "calm"); ("styles", VObj [])].

Definition answering (response : value) (text : option string) : Env :=
  Demo.env "00" FetchRejects (GenResponds response text).

(** [new URL] on the one redirect of the examples, which has no query. *)
Definition URL_parse (s : string) : option URL :=
  if String.eqb s "https://app.example.com/done"
  then Some {| url_base := "https://app.example.com/done"; searchParams := [] |}
  else None.

(** The token endpoint rejects the code with a JSON error body. *)
Definition invalid_grant : Env :=
  Demo.env "00"
    (FetchResponds 400 (Some (VObj [("error", VStr "invalid_grant")])))
    (GenRejects "offline").

(** A 2xx answer that carries neither a token nor an error. *)
Definition empty_grant : Env :=
  Demo.env "00" (FetchResponds 200 (Some (VObj []))) (GenRejects "offline").

(** A stored redirect that matches the pattern and that [new URL] rejects. *)
Definition unparsable : Store := {[ "9c0d" := {| redirect := "http://a b" |} ]}.

Definition denied_unparsable : CallbackQuery :=
  {| q_code := None; q_state := Some "9c0d"; q_error := Some "access_denied" |}.

Definition unknown_state : CallbackQuery :=
  {| q_code := Some "AQB7"; q_state := Some "ffff"; q_error := None |}.

End DemoMore.

(** * Properties *)

(** ** Truthiness and pattern matching *)

Lemma present_Some (s : string) : present (Some s) = negb (String.eqb s "").
Proof. reflexivity. Qed.

Lemma present_true (o : option string) :
  present o = true <-> exists s, o = Some s /\ s <> "".
Proof.
  destruct o as [s|]; cbn.
  - rewrite negb_true_iff. split.
    + intros H. exists s. split; [done|]. by apply String.eqb_neq.
    + intros (s' & [= <-] & Hs). by apply String.eqb_neq.
  - split; [done|]. by intros (s & ? & _).
Qed.

Example test_http_url_ex :
  Str.test_http_url "https://app.example.com/cb" = true
  /\ Str.test_http_url "HTTP://x" = true
  /\ Str.test_http_url "http://" = false
  /\ Str.test_http_url "javascript:alert(1)" = false
  /\ Str.trim "  a b  " = "a b"
  /\ Str.strip_suffix "```" "abc```" = Some "abc".
Proof. repeat split; reflexivity. Qed.

(** ** How [finish] and the exchange helpers run *)

Lemma finish_run (P : Platform) state data provider isError env (txns : Store) :
  finish P state data provider isError env txns =
  match txns !! state with
  | None => ([EvGet state], txns, Ok (Respond 400 BInvalidState))
  | Some txn =>
      ([EvGet state; EvDelete state], delete state txns,
       finish_outcome P txn data provider isError)
  end.
Proof.
  unfold finish, finish_outcome, finish_result, finish_message, bind, txns_get, txns_delete.
  destruct (txns !! state) as [txn|]; [|reflexivity].
  destruct isError; cbn.
  - destruct (JS.get data "error") as [e|]; cbn; [|reflexivity].
    destruct (URL_origin P (redirect txn)); reflexivity.
  - destruct (JS.get data "access_token") as [t|]; cbn; [|reflexivity].
    destruct (URL_origin P (redirect txn)); reflexivity.
Qed.

Lemma exchangeSpotify_run P penv code env (txns : Store) :
  exchangeSpotify P penv code env txns =
  ([EvFetch (spotify_token_request P penv code)], txns,
   exchange_outcome (env_fetch env (spotify_token_request P penv code))
     "Failed to exchange token with Spotify").
Proof.
  unfold exchangeSpotify, exchange_outcome, exchange_error, exchange_error_value, bind, fetch.
  destruct (env_fetch env _) as [|status [data|]]; cbn; try reflexivity.
  destruct (ok status); cbn; [reflexivity|].
  destruct (JS.get data "error_description"); cbn; [|reflexivity].
  destruct (JS.get data "error"); reflexivity.
Qed.

Lemma exchangeGoogle_run penv code env (txns : Store) :
  exchangeGoogle penv code env txns =
  ([EvFetch (google_token_request penv code)], txns,
   exchange_outcome (env_fetch env (google_token_request penv code))
     "Failed to exchange token with Google").
Proof.
  unfold exchangeGoogle, exchange_outcome, exchange_error, exchange_error_value, bind, fetch.
  destruct (env_fetch env _) as [|status [data|]]; cbn; try reflexivity.
  destruct (ok status); cbn; [reflexivity|].
  destruct (JS.get data "error_description"); cbn; [|reflexivity].
  destruct (JS.get data "error"); reflexivity.
Qed.

(** ** The two callback handlers, case by case *)

Lemma callback_spotify_run P penv q env (txns : Store) :
  callback_spotify P penv q env txns =
  callback_behaviour P "spotify" "Missing state from Spotify callback."
    "Missing code from Spotify callback." (spotify_token_request P penv)
    "Failed to exchange token with Spotify" q env txns.
Proof.
  unfold callback_spotify, callback_behaviour, callback_path.
  destruct (q_state q) as [state|]; [|reflexivity].
  destruct (negb (present (Some state))); [reflexivity|].
  destruct (present (q_error q)); [reflexivity|].
  destruct (q_code q) as [code|]; [|reflexivity].
  destruct (negb (present (Some code))); [reflexivity|].
  unfold bind at 1. rewrite exchangeSpotify_run.
  destruct (exchange_outcome _ _) as [tokens|e]; [|reflexivity].
  unfold after_exchange, bind, or_throw, preceded_by.
  destruct (JS.get tokens "error") as [error|]; cbn; [|reflexivity].
  destruct (JS.get tokens "access_token") as [access_token|]; cbn; [|reflexivity].
  destruct (truthy error || negb (truthy access_token));
    destruct (finish _ _ _ _ _ _ _) as [[? ?] ?]; reflexivity.
Qed.

Lemma callback_google_run P penv q env (txns : Store) :
  callback_google P penv q env txns =
  callback_behaviour P "google" "Missing state from Google callback."
    "Missing code from Google callback." (google_token_request penv)
    "Failed to exchange token with Google" q env txns.
Proof.
  unfold callback_google, callback_behaviour, callback_path.
  destruct (q_state q) as [state|]; [|reflexivity].
  destruct (negb (present (Some state))); [reflexivity|].
  destruct (present (q_error q)); [reflexivity|].
  destruct (q_code q) as [code|]; [|reflexivity].
  destruct (negb (present (Some code))); [reflexivity|].
  unfold bind at 1. rewrite exchangeGoogle_run.
  destruct (exchange_outcome _ _) as [tokens|e]; [|reflexivity].
  unfold after_exchange, bind, or_throw, preceded_by.
  destruct (JS.get tokens "error") as [error|]; cbn; [|reflexivity].
  destruct (JS.get tokens "access_token") as [access_token|]; cbn; [|reflexivity].
  destruct (truthy error || negb (truthy access_token));
    destruct (finish _ _ _ _ _ _ _) as [[? ?] ?]; reflexivity.
Qed.

Lemma callback_run P penv p q env (txns : Store) :
  callback P penv p q env txns =
  callback_behaviour P (provider_name p) (missing_state_message p) (missing_code_message p)
    (token_request P penv p) (exchange_fallback p) q env txns.
Proof. destruct p; [apply callback_spotify_run|apply callback_google_run]. Qed.

Lemma exchangeCode_run P penv p code env (txns : Store) :
  exchangeCode P penv p code env txns =
  ([EvFetch (token_request P penv p code)], txns,
   exchange_outcome (env_fetch env (token_request P penv p code)) (exchange_fallback p)).
Proof. destruct p; [apply exchangeSpotify_run|apply exchangeGoogle_run]. Qed.

(** ** The target origin of the relay page *)

Lemma finish_relay_origin P state data provider isError env (txns txns' : Store)
    log status message result targetOrigin :
  finish P state data provider isError env txns
    = (log, txns', Ok (Respond status (BRelay message result targetOrigin))) ->
  exists txn, txns !! state = Some txn /\ URL_origin P (redirect txn) = Some targetOrigin.
Proof.
  rewrite finish_run. destruct (txns !! state) as [txn|]; [|discriminate].
  unfold finish_outcome.
  destruct (finish_result data provider isError); [|discriminate].
  destruct (URL_origin P (redirect txn)) as [o|] eqn:Ho; [|discriminate].
  intros H. injection H as ?; subst. by exists txn.
Qed.

Lemma after_exchange_relay_origin P provider state tokens env (txns txns' : Store)
    log status message result targetOrigin :
  after_exchange P provider state tokens env txns
    = (log, txns', Ok (Respond status (BRelay message result targetOrigin))) ->
  exists txn, txns !! state = Some txn /\ URL_origin P (redirect txn) = Some targetOrigin.
Proof.
  unfold after_exchange.
  destruct (JS.get tokens "error") as [error|]; [|discriminate].
  destruct (JS.get tokens "access_token") as [access_token|]; [|discriminate].
  destruct (truthy error || negb (truthy access_token)); apply finish_relay_origin.
Qed.

Lemma callback_path_state q :
  match callback_path q with
  | MissingState => True
  | ProviderError state _ | MissingCode state | Exchange state _ => q_state q = Some state
  end.
Proof.
  unfold callback_path. destruct (q_state q) as [state|]; [|done].
  destruct (negb (present (Some state))); [done|].
  destruct (present (q_error q)); [done|].
  destruct (q_code q) as [code|]; [|done].
  by destruct (negb (present (Some code))).
Qed.

Lemma callback_behaviour_relay_origin P provider missing_state missing_code request fallback
    q env (txns txns' : Store) log status message result targetOrigin :
  callback_behaviour P provider missing_state missing_code request fallback q env txns
    = (log, txns', Ok (Respond status (BRelay message result targetOrigin))) ->
  exists state txn,
    q_state q = Some state /\ txns !! state = Some txn
    /\ URL_origin P (redirect txn) = Some targetOrigin.
Proof.
  unfold callback_behaviour. pose proof (callback_path_state q) as Hq.
  destruct (callback_path q) as [|state error|state|state code]; [discriminate| | |].
  - intros (txn & ? & ?)%finish_relay_origin. by exists state, txn.
  - intros (txn & ? & ?)%finish_relay_origin. by exists state, txn.
  - destruct (exchange_outcome _ _) as [tokens|e]; [|discriminate].
    destruct (after_exchange P provider state tokens env txns) as [[l t] o] eqn:E.
    cbn. intros [= _ <- ->].
    apply after_exchange_relay_origin in E as (txn & ? & ?). by exists state, txn.
Qed.

(** An accepted [/oauth/start] stores the caller's [redirect] under the state
    it drew. *)
Lemma oauth_start_accepted penv sq env (txns txns' : Store) log location :
  oauth_start penv sq env txns = (log, txns', Ok (RedirectTo location)) ->
  exists redirect,
    q_redirect sq = Some redirect
    /\ known_provider (q_provider sq) = true
    /\ Str.test_http_url redirect = true
    /\ log = [EvRandomBytes 16; EvSet (env_randomHex env) {| redirect := redirect |}]
    /\ txns' = <[env_randomHex env := {| redirect := redirect |}]> txns.
Proof.
  unfold oauth_start.
  destruct (known_provider (q_provider sq)); [|discriminate].
  destruct (q_redirect sq) as [redirect|]; [|discriminate].
  destruct (negb (present (Some redirect)) || negb (Str.test_http_url redirect)) eqn:Hc;
    [discriminate|].
  apply orb_false_elim in Hc as [_ Ht%negb_false_iff].
  unfold bind, randomBytes_hex, txns_set.
  destruct (decide _); cbn; intros [= <- <- _]; by exists redirect.
Qed.

(** C1. For every callback whose state is found in [txns], the target origin
    of the [postMessage] call in the rendered relay page is the origin of the
    redirect stored for that state, for either provider and whatever the
    callback's [code] and [error], the token endpoint's answer and the data
    relayed: two callbacks with the same state render the same target origin
    whatever else they carry; and when the entry was stored by an accepted
    [/oauth/start], it is the origin of the [redirect] that request
    supplied. *)
Theorem relay_target_origin_is_stored_redirect_origin :
  forall (P : Platform) (penv : ProcessEnv),
    (forall (p : Provider) (q : CallbackQuery) (env : Env) (txns txns' : Store) state txn
            log status message result targetOrigin,
        q_state q = Some state ->
        txns !! state = Some txn ->
        callback P penv p q env txns
          = (log, txns', Ok (Respond status (BRelay message result targetOrigin))) ->
        URL_origin P (redirect txn) = Some targetOrigin)
    /\ (forall (p1 p2 : Provider) (q1 q2 : CallbackQuery) (env1 env2 : Env)
               (txns txns1 txns2 : Store) log1 log2 status1 status2 message1 message2
               result1 result2 targetOrigin1 targetOrigin2,
        q_state q1 = q_state q2 ->
        callback P penv p1 q1 env1 txns
          = (log1, txns1, Ok (Respond status1 (BRelay message1 result1 targetOrigin1))) ->
        callback P penv p2 q2 env2 txns
          = (log2, txns2, Ok (Respond status2 (BRelay message2 result2 targetOrigin2))) ->
        targetOrigin1 = targetOrigin2)
    /\ (forall (sq : StartQuery) (env0 : Env) (txns0 txns1 : Store) log0 location
               (p : Provider) (q : CallbackQuery) (env : Env) (txns2 : Store)
               log status message result targetOrigin,
        oauth_start penv sq env0 txns0 = (log0, txns1, Ok (RedirectTo location)) ->
        q_state q = Some (env_randomHex env0) ->
        callback P penv p q env txns1
          = (log, txns2, Ok (Respond status (BRelay message result targetOrigin))) ->
        exists redirect,
          q_redirect sq = Some redirect /\ URL_origin P redirect = Some targetOrigin).
Proof.
  intros P penv.
  assert (forall (p : Provider) (q : CallbackQuery) (env : Env) (txns txns' : Store)
            log status message result targetOrigin,
        callback P penv p q env txns
          = (log, txns', Ok (Respond status (BRelay message result targetOrigin))) ->
        exists state txn,
          q_state q = Some state /\ txns !! state = Some txn
          /\ URL_origin P (redirect txn) = Some targetOrigin) as Hpage.
  { intros p q env txns txns' log status message result targetOrigin H.
    rewrite callback_run in H. by apply callback_behaviour_relay_origin in H. }
  assert (forall (p : Provider) (q : CallbackQuery) (env : Env) (txns txns' : Store) state txn
            log status message result targetOrigin,
        q_state q = Some state ->
        txns !! state = Some txn ->
        callback P penv p q env txns
          = (log, txns', Ok (Respond status (BRelay message result targetOrigin))) ->
        URL_origin P (redirect txn) = Some targetOrigin) as Hfound.
  { intros p q env txns txns' state txn log status message result targetOrigin Hq Htxn H.
    apply Hpage in H as (state' & txn' & Hq' & Htxn' & Ho). congruence. }
  split; [exact Hfound|]. split.
  - intros p1 p2 q1 q2 env1 env2 txns txns1 txns2 log1 log2 status1 status2
      message1 message2 result1 result2 targetOrigin1 targetOrigin2 Hsame H1 H2.
    apply Hpage in H1 as (s1 & t1 & Hq1 & Ht1 & Ho1).
    apply Hpage in H2 as (s2 & t2 & Hq2 & Ht2 & Ho2).
    congruence.
  - intros sq env0 txns0 txns1 log0 location p q env txns2 log status message result
      targetOrigin Hstart Hq Hcb.
    apply oauth_start_accepted in Hstart as (r & Hr & _ & _ & _ & ->).
    exists r. split; [done|].
    eapply (Hfound p q env _ txns2 (env_randomHex env0) {| redirect := r |}
              log status message result targetOrigin Hq); [|exact Hcb].
    apply lookup_insert_eq.
Qed.

Lemma relay_target_origin_witness :
  q_state Demo.denied = Some "5f2a"
  /\ Demo.pending !! "5f2a" = Some {| redirect := "https://app.example.com/done" |}
  /\ callback Demo.platform Demo.penv Spotify Demo.denied (Demo.quiet "00") Demo.pending
     = ([EvGet "5f2a"; EvDelete "5f2a"], delete "5f2a" Demo.pending,
        Ok (Respond 200
              (BRelay (AuthFailed (VStr "access_denied"))
                 (VObj [("provider", VStr "spotify"); ("error", VStr "access_denied")])
                 "https://app.example.com")))
  /\ URL_origin Demo.platform "https://app.example.com/done" = Some "https://app.example.com".
Proof.
  assert (Demo.pending !! "5f2a" = Some {| redirect := "https://app.example.com/done" |})
    as Hp by apply lookup_singleton_eq.
  assert (callback Demo.platform Demo.penv Spotify Demo.denied (Demo.quiet "00") Demo.pending
     = ([EvGet "5f2a"; EvDelete "5f2a"], delete "5f2a" Demo.pending,
        Ok (Respond 200
              (BRelay (AuthFailed (VStr "access_denied"))
                 (VObj [("provider", VStr "spotify"); ("error", VStr "access_denied")])
                 "https://app.example.com")))) as Hrun.
  { vm_compute. reflexivity. }
  split; [reflexivity|]. split; [exact Hp|]. split; [exact Hrun|].
  exact (proj1 (relay_target_origin_is_stored_redirect_origin Demo.platform Demo.penv)
           Spotify Demo.denied (Demo.quiet "00") Demo.pending _ "5f2a" _ _ _ _ _ _
           eq_refl Hp Hrun).
Defined.

(** ** What a request can do to [txns] *)

Lemma finish_store P state data provider isError env (txns : Store) :
  store_after (finish P state data provider isError env txns) = delete state txns.
Proof.
  rewrite finish_run. destruct (txns !! state) eqn:E; cbn; [done|].
  symmetry. by apply delete_id.
Qed.

Lemma callback_behaviour_store P provider missing_state missing_code request fallback
    q env (txns : Store) :
  let txns' := store_after (callback_behaviour P provider missing_state missing_code
                              request fallback q env txns) in
  txns' = txns \/ exists state, txns' = delete state txns.
Proof.
  cbv zeta. unfold callback_behaviour.
  destruct (callback_path q) as [|state error|state|state code].
  - by left.
  - right. exists state. apply finish_store.
  - right. exists state. apply finish_store.
  - destruct (exchange_outcome _ _) as [tokens|e]; [|by left].
    unfold after_exchange.
    destruct (JS.get tokens "error") as [error|]; [|by left].
    destruct (JS.get tokens "access_token") as [access_token|]; [|by left].
    right. exists state.
    destruct (truthy error || negb (truthy access_token));
      match goal with
      | |- context [finish ?P ?s ?d ?p ?e ?env ?t] =>
          pose proof (finish_store P s d p e env t) as Hf;
          destruct (finish P s d p e env t) as [[? ?] ?]
      end; exact Hf.
Qed.

Lemma oauth_start_store penv sq env (txns : Store) :
  let txns' := store_after (oauth_start penv sq env txns) in
  txns' = txns
  \/ exists redirect, txns' = <[env_randomHex env := {| redirect := redirect |}]> txns.
Proof.
  cbv zeta. unfold oauth_start.
  destruct (negb (known_provider (q_provider sq))); [by left|].
  destruct (q_redirect sq) as [redirect|]; [|by left].
  destruct (_ || _); [by left|].
  right. exists redirect. unfold bind, randomBytes_hex, txns_set.
  by destruct (decide _).
Qed.

Lemma keeps_ret {A} (a : A) : keeps_store (ret a).
Proof. by intros env txns. Qed.

Lemma keeps_throw {A} (e : Exn) : keeps_store (@throw A e).
Proof. by intros env txns. Qed.

Lemma keeps_or_throw {A} (e : Exn) (o : option A) : keeps_store (or_throw e o).
Proof. by destruct o. Qed.

Lemma keeps_generateContent req : keeps_store (generateContent req).
Proof. intros env txns. unfold generateContent. by destruct (env_generate env req). Qed.

Lemma keeps_fetch req : keeps_store (fetch req).
Proof. intros env txns. unfold fetch. by destruct (env_fetch env req). Qed.

Lemma keeps_bind {A B} (m : M A) (k : A -> M B) :
  keeps_store m -> (forall a, keeps_store (k a)) -> keeps_store (bind m k).
Proof.
  intros Hm Hk env txns. unfold bind. specialize (Hm env txns).
  destruct (m env txns) as [[log1 txns1] [a|e]]; cbn in Hm; subst; [|done].
  specialize (Hk a env txns). by destruct (k a env txns) as [[log2 txns2] r].
Qed.

Lemma keeps_try_catch {A} (m : M A) (h : Exn -> M A) :
  keeps_store m -> (forall e, keeps_store (h e)) -> keeps_store (try_catch m h).
Proof.
  intros Hm Hh env txns. unfold try_catch. specialize (Hm env txns).
  destruct (m env txns) as [[log1 txns1] [a|e]]; cbn in Hm; subst; [done|].
  specialize (Hh e env txns). by destruct (h e env txns) as [[log2 txns2] r].
Qed.

Ltac keeps_store :=
  repeat first
    [ apply keeps_ret | apply keeps_throw | apply keeps_or_throw
    | apply keeps_generateContent | apply keeps_fetch
    | apply keeps_bind; [|intros ?] | apply keeps_try_catch; [|intros ?]
    | match goal with
      | |- keeps_store (if ?c then _ else _) => destruct c
      | |- keeps_store (match ?x with _ => _ end) => destruct x
      end ].

Lemma ai_store_unchanged P penv body :
  keeps_store (generate_album_cover_prompt P penv body)
  /\ keeps_store (edit_selfie_into_album_cover P penv body)
  /\ keeps_store (generate_playlist_vibe P penv body).
Proof.
  unfold generate_album_cover_prompt, edit_selfie_into_album_cover, generate_playlist_vibe,
    field.
  repeat split; keeps_store.
Qed.

(** ** A state is consumed at most once *)

Lemma serve_keeps_absent P penv state (re : Request * Env) (txns : Store) :
  ~ issues state re ->
  txns !! state = None ->
  store_after (serve P penv (fst re) (snd re) txns) !! state = None.
Proof.
  destruct re as [r env]. unfold issues. cbn [fst snd].
  intros Hfresh Habsent.
  destruct (ai_store_unchanged P penv
              match r with
              | GenerateAlbumCoverPrompt b | EditSelfieIntoAlbumCover b
              | GeneratePlaylistVibe b => b
              | _ => VUndefined
              end) as (Ha & He & Hp).
  destruct r as [body|body|body|q|q|q|]; cbn [serve].
  - by rewrite Ha.
  - by rewrite He.
  - by rewrite Hp.
  - destruct (oauth_start_store penv q env txns) as [->|[redirect ->]]; [done|].
    by rewrite lookup_insert_ne.
  - rewrite callback_spotify_run.
    destruct (callback_behaviour_store P "spotify" "Missing state from Spotify callback."
                "Missing code from Spotify callback." (spotify_token_request P penv)
                "Failed to exchange token with Spotify" q env txns) as [->|[s ->]]; [done|].
    rewrite lookup_delete. by case_decide.
  - rewrite callback_google_run.
    destruct (callback_behaviour_store P "google" "Missing state from Google callback."
                "Missing code from Google callback." (google_token_request penv)
                "Failed to exchange token with Google" q env txns) as [->|[s ->]]; [done|].
    rewrite lookup_delete. by case_decide.
  - done.
Qed.

Lemma serve_all_keeps_absent P penv state (rs : list (Request * Env)) (txns : Store) :
  Forall (fun re => ~ issues state re) rs ->
  txns !! state = None ->
  serve_all P penv rs txns !! state = None.
Proof.
  intros Hrs. revert txns.
  induction Hrs as [|[r env] rs Hre _ IH]; intros txns Habsent; [done|].
  cbn [serve_all]. apply IH. unfold next_txns.
  destruct (outcome (serve P penv r env txns)); [|done].
  by apply (serve_keeps_absent P penv state (r, env)).
Qed.

Lemma finish_unknown_state P state data provider isError env (txns : Store) :
  txns !! state = None ->
  finish P state data provider isError env txns
    = ([EvGet state], txns, Ok (Respond 400 BInvalidState)).
Proof. intros H. by rewrite finish_run, H. Qed.

(** C2. A state token is consumed at most once.  A call of [finish] with a
    state that is in [txns] deletes the entry, with [isError] true or false
    and whatever the outcome; a call with a state that is not in [txns]
    answers the fixed 400 invalid-state page and leaves [txns] alone.  So
    after one call of [finish] with a state, every later call with that state
    answers the 400 page, whatever requests are served in between, as long as
    no [/oauth/start] among them draws the same state again; and so does a
    call with a state that no [/oauth/start] ever drew. *)
Theorem state_consumed_at_most_once :
  forall (P : Platform) (penv : ProcessEnv) (state : string),
    (forall data provider isError env (txns : Store) txn,
        txns !! state = Some txn ->
        exists out,
          finish P state data provider isError env txns
            = ([EvGet state; EvDelete state], delete state txns, out))
    /\ (forall data provider isError env (txns : Store),
        txns !! state = None ->
        finish P state data provider isError env txns
          = ([EvGet state], txns, Ok (Respond 400 BInvalidState)))
    /\ (forall data provider isError env (txns : Store) (later : list (Request * Env))
               data' provider' isError' env',
        Forall (fun re => ~ issues state re) later ->
        let txns1 := store_after (finish P state data provider isError env txns) in
        let txns2 := serve_all P penv later txns1 in
        finish P state data' provider' isError' env' txns2
          = ([EvGet state], txns2, Ok (Respond 400 BInvalidState)))
    /\ (forall (served : list (Request * Env)) data provider isError env,
        Forall (fun re => ~ issues state re) served ->
        let txns := serve_all P penv served ∅ in
        finish P state data provider isError env txns
          = ([EvGet state], txns, Ok (Respond 400 BInvalidState))).
Proof.
  intros P penv state. repeat apply conj.
  - intros data provider isError env txns txn Htxn.
    rewrite finish_run, Htxn. by eexists.
  - intros. by apply finish_unknown_state.
  - intros data provider isError env txns later data' provider' isError' env' Hlater.
    cbv zeta. apply finish_unknown_state, serve_all_keeps_absent; [done|].
    rewrite finish_store. apply lookup_delete_eq.
  - intros served data provider isError env Hserved.
    cbv zeta. apply finish_unknown_state, serve_all_keeps_absent; [done|].
    apply lookup_empty.
Qed.

Lemma state_consumed_at_most_once_witness :
  Demo.pending !! "5f2a" = Some {| redirect := "https://app.example.com/done" |}
  /\ store_after (finish Demo.platform "5f2a" (VObj [("access_token", VStr "BQDx")])
                    "spotify" false (Demo.quiet "00") Demo.pending) = ∅
  /\ Forall (fun re => ~ issues "5f2a" re)
       [(OAuthStart Demo.start_query, Demo.quiet "77c1"); (CallbackGoogle Demo.denied, Demo.quiet "00")]
  /\ finish Demo.platform "5f2a" (VObj [("access_token", VStr "BQDx")]) "spotify" false
       (Demo.quiet "00")
       (serve_all Demo.platform Demo.penv
          [(OAuthStart Demo.start_query, Demo.quiet "77c1");
           (CallbackGoogle Demo.denied, Demo.quiet "00")]
          (store_after (finish Demo.platform "5f2a" (VObj [("access_token", VStr "BQDx")])
                          "spotify" false (Demo.quiet "00") Demo.pending)))
     = ([EvGet "5f2a"],
        {[ "77c1" := {| redirect := "https://app.example.com/done" |} ]},
        Ok (Respond 400 BInvalidState)).
Proof.
  assert (Forall (fun re => ~ issues "5f2a" re)
            [(OAuthStart Demo.start_query, Demo.quiet "77c1");
             (CallbackGoogle Demo.denied, Demo.quiet "00")]) as Hfresh.
  { constructor; [unfold issues; cbn; discriminate|].
    constructor; [intros []|]. constructor. }
  split; [apply lookup_singleton_eq|].
  split; [by vm_compute|].
  split; [exact Hfresh|].
  pose proof (proj1 (proj2 (proj2
    (state_consumed_at_most_once Demo.platform Demo.penv "5f2a")))
      (VObj [("access_token", VStr "BQDx")]) "spotify" false (Demo.quiet "00") Demo.pending
      [(OAuthStart Demo.start_query, Demo.quiet "77c1");
       (CallbackGoogle Demo.denied, Demo.quiet "00")]
      (VObj [("access_token", VStr "BQDx")]) "spotify" false (Demo.quiet "00") Hfresh) as H.
  cbv zeta in H. rewrite H. by vm_compute.
Defined.

(** ** The four paths of a callback *)

Lemma finish_exchanges P state data provider isError env (txns : Store) :
  exchanges (finish P state data provider isError env txns) = 0%nat.
Proof. rewrite finish_run. by destruct (txns !! state). Qed.

Lemma preceded_by_fetch_exchanges {A} req (r : list Event * Store * result A) :
  exchanges (preceded_by [EvFetch req] r) = S (exchanges r).
Proof. by destruct r as [[log txns] out]. Qed.

Lemma callback_path_missing_state q :
  present (q_state q) = false -> callback_path q = MissingState.
Proof.
  unfold callback_path. destruct (q_state q) as [state|]; [|done]. by intros ->.
Qed.

Lemma callback_path_error q state :
  q_state q = Some state -> present (q_state q) = true -> present (q_error q) = true ->
  callback_path q = ProviderError state (of_option (q_error q)).
Proof. unfold callback_path. intros -> -> ->. done. Qed.

Lemma callback_path_missing_code q state :
  q_state q = Some state -> present (q_state q) = true -> present (q_error q) = false ->
  present (q_code q) = false ->
  callback_path q = MissingCode state.
Proof.
  unfold callback_path. intros -> -> ->. cbn [negb].
  destruct (q_code q) as [code|]; [|done]. by intros ->.
Qed.

Lemma callback_path_exchange q state code :
  q_state q = Some state -> present (q_state q) = true -> present (q_error q) = false ->
  q_code q = Some code -> present (q_code q) = true ->
  callback_path q = Exchange state code.
Proof. unfold callback_path. intros -> -> -> -> ->. done. Qed.

Lemma get_get_opt data k :
  data <> VNull -> data <> VUndefined -> JS.get data k = Some (JS.get_opt data k).
Proof. by destruct data. Qed.

Lemma after_exchange_exchanges P provider state tokens env (txns : Store) :
  exchanges (after_exchange P provider state tokens env txns) = 0%nat.
Proof.
  unfold after_exchange.
  destruct (JS.get tokens "error") as [error|]; [|done].
  destruct (JS.get tokens "access_token") as [access_token|]; [|done].
  destruct (truthy error || negb (truthy access_token)); apply finish_exchanges.
Qed.

(** C3, as the code has it.  For every request to [/callback/spotify] or
    [/callback/google], a query parameter counting as present when it is
    non-empty: without [state] the answer is HTTP 400 and [txns] is not
    touched; with [error], [finish] is called with [isError = true] on
    [{ error }] and no token exchange is sent; without [code], [finish] is
    called with [isError = true] on the fixed message and no token exchange is
    sent; otherwise exactly one token exchange is sent, for this [code], and
    when the helper returns a JSON value [tokens] other than [null], [finish]
    is called as a success if [tokens.error] is falsy and
    [tokens.access_token] truthy, and with [isError = true] on
    [{ error: tokens.error }] if not.  The one value the helper can return
    that is left is [null] (a 2xx answer whose body is [null]): reading
    [tokens.error] throws and [finish] is not called. *)
Theorem callback_paths_by_truthiness :
  forall (P : Platform) (penv : ProcessEnv) (p : Provider) (q : CallbackQuery)
         (env : Env) (txns : Store),
    let run := callback P penv p q env txns in
    (present (q_state q) = false ->
       run = ([], txns, Ok (Respond 400 (BText (missing_state_message p)))))
    /\ (forall state,
         q_state q = Some state -> present (q_state q) = true ->
         present (q_error q) = true ->
         run = finish P state (VObj [("error", of_option (q_error q))])
                 (provider_name p) true env txns
         /\ exchanges run = 0%nat)
    /\ (forall state,
         q_state q = Some state -> present (q_state q) = true ->
         present (q_error q) = false -> present (q_code q) = false ->
         run = finish P state (VObj [("error", VStr (missing_code_message p))])
                 (provider_name p) true env txns
         /\ exchanges run = 0%nat)
    /\ (forall state code,
         q_state q = Some state -> present (q_state q) = true ->
         present (q_error q) = false ->
         q_code q = Some code -> present (q_code q) = true ->
         exchanges run = 1%nat
         /\ (exists rest, effects run = EvFetch (token_request P penv p code) :: rest)
         /\ forall tokens,
             outcome (exchangeCode P penv p code env txns) = Ok tokens ->
             run = match tokens with
                   | VNull | VUndefined =>
                       ([EvFetch (token_request P penv p code)], txns, Throw TypeError)
                   | _ =>
                       preceded_by [EvFetch (token_request P penv p code)]
                         (if negb (truthy (JS.get_opt tokens "error"))
                             && truthy (JS.get_opt tokens "access_token")
                          then finish P state tokens (provider_name p) false env txns
                          else finish P state (VObj [("error", JS.get_opt tokens "error")])
                                 (provider_name p) true env txns)
                   end).
Proof.
  intros P penv p q env txns run. subst run.
  rewrite callback_run. unfold callback_behaviour.
  split; [|split; [|split]].
  - intros Hs. by rewrite (callback_path_missing_state q Hs).
  - intros state Hq Hs He. rewrite (callback_path_error q state Hq Hs He).
    split; [done|apply finish_exchanges].
  - intros state Hq Hs He Hc. rewrite (callback_path_missing_code q state Hq Hs He Hc).
    split; [done|apply finish_exchanges].
  - intros state code Hq Hs He Hc Hp.
    rewrite (callback_path_exchange q state code Hq Hs He Hc Hp).
    rewrite exchangeCode_run. unfold outcome. cbn [snd].
    destruct (exchange_outcome _ _) as [tokens|e].
    + split; [by rewrite preceded_by_fetch_exchanges, after_exchange_exchanges|].
      split.
      { destruct (after_exchange _ _ _ _ _ _) as [[log t] o]. by eexists. }
      intros tokens' [= <-]. unfold after_exchange.
      destruct tokens as [| |b|n|s|items|fields]; try done;
        cbn [JS.get JS.get_opt];
        by destruct (truthy _), (truthy _).
    + split; [done|]. split; [by eexists|]. discriminate.
Qed.

Lemma callback_paths_witness :
  (q_state Demo.with_code = Some "5f2a" /\ present (q_state Demo.with_code) = true
   /\ present (q_error Demo.with_code) = false
   /\ q_code Demo.with_code = Some "AQB7" /\ present (q_code Demo.with_code) = true)
  /\ exchanges (callback Demo.platform Demo.penv Spotify Demo.with_code
                  DemoCallback.granting Demo.pending) = 1%nat
  /\ callback Demo.platform Demo.penv Spotify Demo.with_code DemoCallback.granting Demo.pending
     = preceded_by [EvFetch (token_request Demo.platform Demo.penv Spotify "AQB7")]
         (finish Demo.platform "5f2a" DemoCallback.tokens "spotify" false
            DemoCallback.granting Demo.pending).
Proof.
  split; [by repeat split|].
  destruct (proj2 (proj2 (proj2
    (callback_paths_by_truthiness Demo.platform Demo.penv Spotify Demo.with_code
       DemoCallback.granting Demo.pending)))
    "5f2a" "AQB7" eq_refl eq_refl eq_refl eq_refl eq_refl) as (Hone & _ & Hrun).
  split; [exact Hone|].
  exact (Hrun DemoCallback.tokens eq_refl).
Defined.

(** C3 as stated fails: the [error] parameter is present in the query, yet
    the handler sends a token exchange and the flow finishes as a success. *)
Lemma empty_error_parameter_still_exchanges :
  q_error DemoCallback.empty_error = Some ""
  /\ callback Demo.platform Demo.penv Spotify DemoCallback.empty_error
       DemoCallback.granting Demo.pending
     = ([EvFetch (token_request Demo.platform Demo.penv Spotify "AQB7");
         EvGet "5f2a"; EvDelete "5f2a"],
        ∅,
        Ok (Respond 200
              (BRelay AuthSuccessful
                 (VObj [("provider", VStr "spotify"); ("token", VStr "BQDx")])
                 "https://app.example.com"))).
Proof. split; [reflexivity|]. by vm_compute. Qed.

(** ** Starting a flow *)

Lemma test_http_url_nonempty redirect :
  Str.test_http_url redirect = true -> present (Some redirect) = true.
Proof. by destruct redirect. Qed.

(** C4. For every valid (provider, redirect) pair, [/oauth/start] draws one
    state, stores exactly one entry, [state -> { redirect }] (one more entry
    in [txns] when the state drawn is fresh, every other entry untouched),
    and redirects to the provider's authorization endpoint with exactly the
    parameters of its shape: for spotify [response_type=code], [client_id],
    [redirect_uri], [scope], [state], [show_dialog=true]; for google
    [response_type=code], [client_id], [redirect_uri], [scope],
    [access_type=offline], [prompt=consent], [state]. *)
Theorem oauth_start_creates_one_transaction :
  forall (penv : ProcessEnv) (provider redirect : string) (env : Env) (txns : Store),
    provider = "spotify" \/ provider = "google" ->
    Str.test_http_url redirect = true ->
    let state := env_randomHex env in
    let txns' := <[state := {| redirect := redirect |}]> txns in
    oauth_start penv {| q_provider := Some provider; q_redirect := Some redirect |} env txns
      = ([EvRandomBytes 16; EvSet state {| redirect := redirect |}], txns',
         Ok (RedirectTo
               (if decide (provider = "spotify")
                then {| url_base := "https://accounts.spotify.com/authorize";
                        searchParams :=
                          [("response_type", "code");
                           ("client_id", to_string (SPOTIFY_CLIENT_ID penv));
                           ("redirect_uri", to_string (SPOTIFY_REDIRECT_URI penv));
                           ("scope", "playlist-modify-public playlist-modify-private ugc-image-upload");
                           ("state", state);
                           ("show_dialog", "true")] |}
                else {| url_base := "https://accounts.google.com/o/oauth2/v2/auth";
                        searchParams :=
                          [("response_type", "code");
                           ("client_id", to_string (GOOGLE_CLIENT_ID penv));
                           ("redirect_uri", to_string (GOOGLE_REDIRECT_URI penv));
                           ("scope", "https://www.googleapis.com/auth/youtube");
                           ("access_type", "offline");
                           ("prompt", "consent");
                           ("state", state)] |})))
    /\ txns' !! state = Some {| redirect := redirect |}
    /\ (forall other, other <> state -> txns' !! other = txns !! other)
    /\ (txns !! state = None -> size txns' = S (size txns)).
Proof.
  intros penv provider redirect env txns Hprovider Hurl state txns'.
  split; [|split; [|split]].
  - unfold oauth_start. cbn [q_provider q_redirect].
    rewrite (test_http_url_nonempty redirect Hurl), Hurl.
    destruct Hprovider as [-> | ->]; reflexivity.
  - apply lookup_insert_eq.
  - intros other Hother. by apply lookup_insert_ne.
  - intros Hfresh. by apply map_size_insert_None.
Qed.

Lemma oauth_start_creates_one_transaction_witness :
  ("google" = "spotify" \/ "google" = "google")
  /\ Str.test_http_url "https://app.example.com/done" = true
  /\ oauth_start Demo.penv
       {| q_provider := Some "google"; q_redirect := Some "https://app.example.com/done" |}
       (Demo.quiet "77c1") Demo.pending
     = ([EvRandomBytes 16; EvSet "77c1" {| redirect := "https://app.example.com/done" |}],
        <["77c1" := {| redirect := "https://app.example.com/done" |}]> Demo.pending,
        Ok (RedirectTo
              {| url_base := "https://accounts.google.com/o/oauth2/v2/auth";
                 searchParams :=
                   [("response_type", "code");
                    ("client_id", "id");
                    ("redirect_uri", "https://relay.example.com/callback/google");
                    ("scope", "https://www.googleapis.com/auth/youtube");
                    ("access_type", "offline");
                    ("prompt", "consent");
                    ("state", "77c1")] |}))
  /\ size (<["77c1" := {| redirect := "https://app.example.com/done" |}]> Demo.pending) = 2%nat.
Proof.
  destruct (oauth_start_creates_one_transaction Demo.penv "google"
              "https://app.example.com/done" (Demo.quiet "77c1") Demo.pending
              (or_intror eq_refl) eq_refl) as (Hrun & _ & _ & Hsize).
  split; [by right|]. split; [reflexivity|]. split; [exact Hrun|].
  transitivity (S (size Demo.pending)); [|by vm_compute].
  apply Hsize. by vm_compute.
Defined.

Lemma known_provider_false provider :
  provider <> Some "spotify" -> provider <> Some "google" -> known_provider provider = false.
Proof.
  intros Hs Hg. destruct provider as [p|]; [|done]. cbn.
  apply orb_false_intro; apply String.eqb_neq; congruence.
Qed.

(** C5. [/oauth/start] answers HTTP 400 for every [provider] that is not
    [spotify] or [google] (an absent one too), and HTTP 400 for every
    [redirect] that is absent or does not match [^https?://.+]; in both cases
    [txns] is not touched: no state is drawn and nothing is stored. *)
Theorem oauth_start_rejects_bad_provider_and_redirect :
  forall (penv : ProcessEnv) (sq : StartQuery) (env : Env) (txns : Store),
    (q_provider sq <> Some "spotify" -> q_provider sq <> Some "google" ->
       oauth_start penv sq env txns = ([], txns, Ok (Respond 400 (BText "bad provider"))))
    /\ (q_redirect sq = None
        \/ (exists redirect, q_redirect sq = Some redirect
                             /\ Str.test_http_url redirect = false) ->
        oauth_start penv sq env txns
          = ([], txns,
             Ok (Respond 400 (BText (if known_provider (q_provider sq)
                                     then "bad redirect" else "bad provider"))))).
Proof.
  intros penv sq env txns. unfold oauth_start. split.
  - intros Hs Hg. by rewrite (known_provider_false _ Hs Hg).
  - intros Hbad. destruct (known_provider (q_provider sq)); [|done]. cbn [negb].
    destruct Hbad as [-> | (redirect & -> & ->)]; [done|].
    by rewrite orb_true_r.
Qed.

Lemma oauth_start_rejects_witness :
  (Some "twitter" <> Some "spotify" /\ Some "twitter" <> Some "google")
  /\ oauth_start Demo.penv
       {| q_provider := Some "twitter"; q_redirect := Some "https://app.example.com/done" |}
       (Demo.quiet "77c1") Demo.pending
     = ([], Demo.pending, Ok (Respond 400 (BText "bad provider")))
  /\ Str.test_http_url "javascript:alert(1)" = false
  /\ oauth_start Demo.penv
       {| q_provider := Some "spotify"; q_redirect := Some "javascript:alert(1)" |}
       (Demo.quiet "77c1") Demo.pending
     = ([], Demo.pending, Ok (Respond 400 (BText "bad redirect"))).
Proof.
  assert (Some "twitter" <> Some "spotify" /\ Some "twitter" <> Some "google") as Hne
    by (split; discriminate).
  split; [exact Hne|].
  split.
  - exact (proj1 (oauth_start_rejects_bad_provider_and_redirect Demo.penv
                    {| q_provider := Some "twitter";
                       q_redirect := Some "https://app.example.com/done" |}
                    (Demo.quiet "77c1") Demo.pending) (proj1 Hne) (proj2 Hne)).
  - split; [reflexivity|].
    exact (proj2 (oauth_start_rejects_bad_provider_and_redirect Demo.penv
                    {| q_provider := Some "spotify"; q_redirect := Some "javascript:alert(1)" |}
                    (Demo.quiet "77c1") Demo.pending)
             (or_intror (ex_intro _ "javascript:alert(1)" (conj eq_refl eq_refl)))).
Defined.

(** ** The token exchange requests *)

(** C6. Every code exchange sends exactly one request, a POST with a
    form-encoded body.  [exchangeSpotify] sends [grant_type=authorization_code],
    the code and the redirect URI, and authenticates with a Basic
    [Authorization] header built from [clientId:clientSecret];
    [exchangeGoogle] sends the same three fields plus [client_id] and
    [client_secret] in the body, and no [Authorization] header.  Neither
    touches [txns]. *)
Theorem exchange_requests :
  forall (P : Platform) (penv : ProcessEnv) (code : string) (env : Env) (txns : Store),
    effects (exchangeSpotify P penv code env txns)
      = [EvFetch
           {| fr_url := "https://accounts.spotify.com/api/token";
              fr_method := "POST";
              fr_headers :=
                [("Content-Type", "application/x-www-form-urlencoded");
                 ("Authorization",
                  "Basic " +:+ base64 P (to_string (SPOTIFY_CLIENT_ID penv) +:+ ":"
                                         +:+ to_string (SPOTIFY_CLIENT_SECRET penv)))];
              fr_body :=
                [("grant_type", "authorization_code");
                 ("code", code);
                 ("redirect_uri", to_string (SPOTIFY_REDIRECT_URI penv))] |}]
    /\ effects (exchangeGoogle penv code env txns)
      = [EvFetch
           {| fr_url := "https://oauth2.googleapis.com/token";
              fr_method := "POST";
              fr_headers := [("Content-Type", "application/x-www-form-urlencoded")];
              fr_body :=
                [("grant_type", "authorization_code");
                 ("code", code);
                 ("client_id", to_string (GOOGLE_CLIENT_ID penv));
                 ("client_secret", to_string (GOOGLE_CLIENT_SECRET penv));
                 ("redirect_uri", to_string (GOOGLE_REDIRECT_URI penv))] |}]
    /\ store_after (exchangeSpotify P penv code env txns) = txns
    /\ store_after (exchangeGoogle penv code env txns) = txns.
Proof.
  intros P penv code env txns.
  rewrite exchangeSpotify_run, exchangeGoogle_run. by repeat split.
Qed.

(** ** A failed exchange *)

Lemma provider_error_truthy data p : truthy (provider_error data (exchange_fallback p)) = true.
Proof.
  unfold provider_error, JS.or.
  destruct (truthy (JS.get_opt data "error_description")) eqn:Hd; [done|].
  destruct (truthy (JS.get_opt data "error")) eqn:He; [done|].
  by destruct p.
Qed.



(** C7. The code departs from the claim when the token endpoint answers a
    callback that carries a pending state and a code with a non-2xx status
    and a body that is not JSON (a gateway's 502 page): the helper awaits
    [r.json()] before it tests [r.ok], so it throws where the claim has it
    return an error with the fallback message; the handler, which has no
    [try], sends no relay page and never calls [finish] (the log holds the
    fetch alone, no [txns.get] and no [txns.delete]); the rejection is
    unhandled, and the transaction is lost with the process, not deleted by
    the relay. *)
Theorem non_json_error_body_is_not_reported :
  ok 502 = false
  /\ env_fetch DemoFailure.bad_gateway (token_request Demo.platform Demo.penv Spotify "AQB7")
     = FetchResponds 502 None
  /\ Demo.pending !! "5f2a" = Some {| redirect := "https://app.example.com/done" |}
  /\ exchangeCode Demo.platform Demo.penv Spotify "AQB7" DemoFailure.bad_gateway Demo.pending
     = ([EvFetch (token_request Demo.platform Demo.penv Spotify "AQB7")], Demo.pending,
        Throw InvalidJSON)
  /\ callback Demo.platform Demo.penv Spotify Demo.with_code DemoFailure.bad_gateway Demo.pending
     = ([EvFetch (token_request Demo.platform Demo.penv Spotify "AQB7")], Demo.pending,
        Throw InvalidJSON)
  /\ serve Demo.platform Demo.penv (CallbackSpotify Demo.with_code) DemoFailure.bad_gateway
       Demo.pending
     = callback Demo.platform Demo.penv Spotify Demo.with_code DemoFailure.bad_gateway
         Demo.pending
  /\ serve_all Demo.platform Demo.penv
       [(CallbackSpotify Demo.with_code, DemoFailure.bad_gateway)] Demo.pending = ∅.
Proof.
  split; [reflexivity|]. split; [reflexivity|]. split; [apply lookup_singleton_eq|].
  split; [reflexivity|]. split; [reflexivity|]. split; reflexivity.
Qed.

(** ** Stripping a fence *)

Section StrFacts.

Import Str.

Lemma append_cons (c : ascii) (s t : string) : String c s +:+ t = String c (s +:+ t).
Proof. reflexivity. Qed.

Lemma append_nil_r (s : string) : s +:+ "" = s.
Proof. induction s as [|c s IH]; [done|]. by rewrite append_cons, IH. Qed.

Lemma append_assoc (a b c : string) : (a +:+ b) +:+ c = a +:+ (b +:+ c).
Proof. induction a as [|x a IH]; [done|]. by rewrite !append_cons, IH. Qed.

Lemma rev_onto_spec (s acc : string) : rev_onto s acc = rev s +:+ acc.
Proof.
  unfold rev. revert acc. induction s as [|c s IH]; intros acc; [done|].
  cbn [rev_onto]. rewrite IH, (IH (String c "")), append_assoc. done.
Qed.

Lemma rev_cons (c : ascii) (s : string) : rev (String c s) = rev s +:+ String c "".
Proof. unfold rev at 1. cbn [rev_onto]. apply rev_onto_spec. Qed.

Lemma rev_app (a b : string) : rev (a +:+ b) = rev b +:+ rev a.
Proof.
  induction a as [|c a IH].
  - change ("" +:+ b) with b. change (rev "") with "". by rewrite append_nil_r.
  - by rewrite append_cons, !rev_cons, IH, append_assoc.
Qed.

Lemma rev_involutive (s : string) : rev (rev s) = s.
Proof.
  induction s as [|c s IH]; [done|].
  by rewrite rev_cons, rev_app, IH.
Qed.

Lemma strip_prefix_app (p s : string) : strip_prefix p (p +:+ s) = Some s.
Proof.
  induction p as [|c p IH]; [done|].
  rewrite append_cons. cbn [strip_prefix]. by rewrite Ascii.eqb_refl.
Qed.

Lemma strip_suffix_app (p s : string) : strip_suffix p (s +:+ p) = Some s.
Proof.
  unfold strip_suffix. by rewrite rev_app, strip_prefix_app, rev_involutive.
Qed.

Lemma trim_start_app (x : string) (c : ascii) (r : string) :
  is_space c = false ->
  trim_start (x +:+ String c r) = trim_start x +:+ String c r.
Proof.
  intros Hc. induction x as [|d x IH].
  - change ("" +:+ String c r) with (String c r). cbn [trim_start]. by rewrite Hc.
  - rewrite append_cons. cbn [trim_start]. by destruct (is_space d).
Qed.

(** A text wrapped in a [json] fence matches, and the group is the text
    between the fences without the white space around it. *)
Lemma match_fence_json (x : string) :
  match_fence ("```json" +:+ x +:+ "```") = Some (trim x).
Proof.
  unfold match_fence.
  change ("```json" +:+ x +:+ "```") with ("```" +:+ ("json" +:+ (x +:+ "```"))).
  rewrite strip_prefix_app.
  change (strip_prefix_ci "json" ("json" +:+ (x +:+ "```"))) with (Some (x +:+ "```")).
  cbv iota beta.
  rewrite (trim_start_app x "`"%char "``" eq_refl).
  change (String "`"%char "``") with "```".
  by rewrite strip_suffix_app.
Qed.

End StrFacts.

Example match_fence_ex :
  Str.match_fence "```json [1,2] ```" = Some "[1,2]"
  /\ Str.match_fence "```JSON[1,2]```" = Some "[1,2]"
  /\ Str.match_fence "``` [1,2]```" = Some "[1,2]"
  /\ Str.match_fence "[1,2]" = None
  /\ Str.match_fence "`````" = None
  /\ Str.match_fence "```a```b```" = Some "a```b".
Proof. repeat split; reflexivity. Qed.

(** ** The JSON-safe playlist handler *)

(** C8, as the code has it.  In the revised [/generate-playlist-vibe]
    handler, once the guards have passed and the model has answered: the
    answer's text is trimmed; a text wrapped in a [```json] fence is replaced
    by what is between the fences, trimmed, and a text that is not fenced is
    kept; when the resulting text is well-formed JSON the endpoint answers
    200 with exactly the parsed value, so its [songs] array has the entries
    the model produced, however many [playlistLength] asked for; and when it
    is not, the endpoint answers 502 with a fixed error and no parsed
    data. *)
Theorem playlist_vibe_parses_or_502 :
  forall (P : Platform) (penv : ProcessEnv) (body : value) (env : Env) (txns : Store)
         prompt response text,
    let fields := JS.or body (VObj []) in
    let mood := JS.get_opt fields "mood" in
    let albumPrompt := JS.get_opt fields "albumPrompt" in
    let playlistLength := JS.get_opt fields "playlistLength" in
    JsonSafe.ai penv = true ->
    truthy mood = true -> truthy albumPrompt = true -> truthy playlistLength = true ->
    render P (PlaylistJsonPrompt mood albumPrompt playlistLength) = Some prompt ->
    env_generate env (playlist_json_request prompt) = GenResponds response text ->
    let jsonText := JsonSafe.json_text text in
    JsonSafe.generate_playlist_vibe P penv body env txns
      = ([EvGenerate (playlist_json_request prompt)], txns,
         Ok match JSON_parse P jsonText with
            | Some data => Respond 200 (BJson data)
            | None => Respond 502 (error_body "Model did not return valid JSON.")
            end)
    /\ (forall t x, text = Some t -> Str.trim t = "```json" +:+ x +:+ "```" ->
          jsonText = Str.trim (Str.trim x))
    /\ (forall t, text = Some t -> Str.match_fence (Str.trim t) = None ->
          jsonText = Str.trim t)
    /\ (forall data, JSON_parse P jsonText = Some data ->
          outcome (JsonSafe.generate_playlist_vibe P penv body env txns)
            = Ok (Respond 200 (BJson data))
          /\ returned_songs (outcome (JsonSafe.generate_playlist_vibe P penv body env txns))
             = songs_count data)
    /\ (JSON_parse P jsonText = None ->
          outcome (JsonSafe.generate_playlist_vibe P penv body env txns)
            = Ok (Respond 502 (error_body "Model did not return valid JSON."))).
Proof.
  intros P penv body env txns prompt response text fields mood albumPrompt playlistLength
    Hai Hmood Halbum Hlength Hrender Hgen jsonText.
  assert (JsonSafe.generate_playlist_vibe P penv body env txns
      = ([EvGenerate (playlist_json_request prompt)], txns,
         Ok match JSON_parse P jsonText with
            | Some data => Respond 200 (BJson data)
            | None => Respond 502 (error_body "Model did not return valid JSON.")
            end)) as Hrun.
  { unfold JsonSafe.generate_playlist_vibe.
    fold fields. fold mood. fold albumPrompt. fold playlistLength.
    rewrite Hai, Hmood, Halbum, Hlength. cbn [negb orb].
    unfold try_catch, bind, generateContent. rewrite Hrender.
    cbn [or_throw ret]. fold (playlist_json_request prompt). rewrite Hgen.
    cbn [snd]. fold jsonText. by destruct (JSON_parse P jsonText). }
  split; [exact Hrun|]. split; [|split; [|split]].
  - intros t x -> Ht. subst jsonText. unfold JsonSafe.json_text.
    by rewrite Ht, match_fence_json.
  - intros t -> Hm. subst jsonText. unfold JsonSafe.json_text. by rewrite Hm.
  - intros data Hdata. by rewrite Hrun, Hdata.
  - intros Hnone. by rewrite Hrun, Hnone.
Qed.

Lemma playlist_vibe_witness :
  (JsonSafe.ai Demo.penv = true
   /\ truthy (JS.get_opt DemoPlaylist.body "mood") = true
   /\ truthy (JS.get_opt DemoPlaylist.body "albumPrompt") = true
   /\ truthy (JS.get_opt DemoPlaylist.body "playlistLength") = true
   /\ Str.trim "```json [1,2] ```" = "```json" +:+ " [1,2] " +:+ "```")
  /\ JsonSafe.json_text (Some "```json [1,2] ```") = "[1,2]"
  /\ JsonSafe.generate_playlist_vibe Demo.platform Demo.penv DemoPlaylist.body
       DemoPlaylist.fenced ∅
     = ([EvGenerate (playlist_json_request "prompt")], ∅,
        Ok (Respond 200 (BJson (VArr [VNum 1; VNum 2])))).
Proof.
  destruct (playlist_vibe_parses_or_502 Demo.platform Demo.penv DemoPlaylist.body
              DemoPlaylist.fenced ∅ "prompt" VNull (Some "```json [1,2] ```")
              eq_refl eq_refl eq_refl eq_refl eq_refl eq_refl)
    as (Hrun & Hfence & _).
  split; [by repeat split|].
  split; [exact (Hfence "```json [1,2] ```" " [1,2] " eq_refl eq_refl)|].
  exact Hrun.
Defined.

(** C8 as stated fails: with [playlistLength = 5] and a well-formed JSON
    answer, the endpoint returns the answer parsed, and its [songs] array has
    no entry. *)
Lemma well_formed_answer_with_no_songs :
  JS.get_opt DemoPlaylist.body "playlistLength" = VNum 5
  /\ JSON_parse Demo.platform Demo.no_songs_text = Some (VObj [("songs", VArr [])])
  /\ JsonSafe.generate_playlist_vibe Demo.platform Demo.penv DemoPlaylist.body
       DemoPlaylist.no_songs ∅
     = ([EvGenerate (playlist_json_request "prompt")], ∅,
        Ok (Respond 200 (BJson (VObj [("songs", VArr [])]))))
  /\ returned_songs (outcome (JsonSafe.generate_playlist_vibe Demo.platform Demo.penv
                                DemoPlaylist.body DemoPlaylist.no_songs ∅)) = Some 0%nat.
Proof. by vm_compute. Qed.

(** The handler of server.js itself forwards the model's text as it is, with
    a JSON content type: a fenced answer is not unwrapped and nothing is
    parsed. *)
Lemma playlist_vibe_forwards_text :
  generate_playlist_vibe Demo.platform Demo.penv DemoPlaylist.body DemoPlaylist.fenced ∅
  = ([EvGenerate {| gr_model := "gemini-2.5-flash"; gr_prompt := "prompt";
                    gr_image := None; gr_json := false |}], ∅,
     Ok (Respond 200 (BJsonText "```json [1,2] ```"))).
Proof. by vm_compute. Qed.

(** ** The guards of the AI endpoints *)

(** C9. In each of the three AI endpoints the credential check comes first:
    without a credential every request, whatever its body (fields missing or
    not), is answered HTTP 503 and nothing else happens; so an HTTP 400
    answer can only come from a server that has a credential. *)
Theorem ai_credential_checked_before_body :
  forall (P : Platform) (penv : ProcessEnv) (body : value) (env : Env) (txns : Store),
    (genAI penv = false ->
       generate_album_cover_prompt P penv body env txns = ([], txns, Ok not_configured)
       /\ edit_selfie_into_album_cover P penv body env txns = ([], txns, Ok not_configured)
       /\ generate_playlist_vibe P penv body env txns = ([], txns, Ok not_configured))
    /\ (forall answer,
         outcome (generate_album_cover_prompt P penv body env txns) = Ok (Respond 400 answer)
         \/ outcome (edit_selfie_into_album_cover P penv body env txns) = Ok (Respond 400 answer)
         \/ outcome (generate_playlist_vibe P penv body env txns) = Ok (Respond 400 answer) ->
         genAI penv = true).
Proof.
  intros P penv body env txns.
  assert (genAI penv = false ->
       generate_album_cover_prompt P penv body env txns = ([], txns, Ok not_configured)
       /\ edit_selfie_into_album_cover P penv body env txns = ([], txns, Ok not_configured)
       /\ generate_playlist_vibe P penv body env txns = ([], txns, Ok not_configured)) as H503.
  { intros Hno.
    unfold generate_album_cover_prompt, edit_selfie_into_album_cover, generate_playlist_vibe.
    by rewrite Hno. }
  split; [exact H503|].
  intros answer H400. destruct (genAI penv) eqn:Hai; [done|].
  destruct (H503 eq_refl) as (Ha & He & Hp). rewrite Ha, He, Hp in H400.
  by destruct H400 as [H|[H|H]].
Qed.

Lemma ai_credential_witness :
  genAI Demo.penv_no_ai = false
  /\ generate_album_cover_prompt Demo.platform Demo.penv_no_ai (VObj [])
       (Demo.quiet "00") ∅ = ([], ∅, Ok not_configured)
  /\ edit_selfie_into_album_cover Demo.platform Demo.penv_no_ai (VObj [])
       (Demo.quiet "00") ∅ = ([], ∅, Ok not_configured)
  /\ generate_playlist_vibe Demo.platform Demo.penv_no_ai (VObj [])
       (Demo.quiet "00") ∅ = ([], ∅, Ok not_configured).
Proof.
  split; [reflexivity|].
  exact (proj1 (ai_credential_checked_before_body Demo.platform Demo.penv_no_ai (VObj [])
                  (Demo.quiet "00") ∅) eq_refl).
Defined.

(** C10. The required fields of the AI endpoints are tested for truthiness:
    with a credential configured and an object as body, a field holding a
    falsy value ([0], the empty string, [false], [null]) is rejected like a
    missing one, with HTTP 400 and "Missing parameters."; so is
    [/generate-playlist-vibe] with [playlistLength = 0], or with an empty
    [mood] or [albumPrompt]. *)
Theorem falsy_fields_are_missing :
  forall (P : Platform) (penv : ProcessEnv) (fields : list (string * value))
         (env : Env) (txns : Store),
    genAI penv = true ->
    let value_of k := JS.assoc k fields in
    (truthy (value_of "mood") = false \/ truthy (value_of "albumPrompt") = false
     \/ truthy (value_of "playlistLength") = false ->
     generate_playlist_vibe P penv (VObj fields) env txns = ([], txns, Ok missing_parameters))
    /\ (truthy (value_of "imageData") = false \/ truthy (value_of "imageMimeType") = false
        \/ truthy (value_of "mood") = false \/ truthy (value_of "styles") = false ->
        generate_album_cover_prompt P penv (VObj fields) env txns
          = ([], txns, Ok missing_parameters))
    /\ (truthy (value_of "imageData") = false \/ truthy (value_of "imageMimeType") = false
        \/ truthy (value_of "prompt") = false ->
        edit_selfie_into_album_cover P penv (VObj fields) env txns
          = ([], txns, Ok missing_parameters))
    /\ (value_of "playlistLength" = VNum 0 \/ value_of "mood" = VStr ""
        \/ value_of "albumPrompt" = VStr "" ->
        generate_playlist_vibe P penv (VObj fields) env txns = ([], txns, Ok missing_parameters)).
Proof.
  intros P penv fields env txns Hai value_of.
  assert (truthy (value_of "mood") = false \/ truthy (value_of "albumPrompt") = false
     \/ truthy (value_of "playlistLength") = false ->
     generate_playlist_vibe P penv (VObj fields) env txns = ([], txns, Ok missing_parameters))
    as Hvibe.
  { intros Hfalsy. unfold generate_playlist_vibe, field, bind. rewrite Hai.
    cbn [negb JS.get or_throw ret]. fold (value_of "mood"). fold (value_of "albumPrompt").
    fold (value_of "playlistLength").
    destruct Hfalsy as [-> | [-> | ->]]; cbn [negb orb]; rewrite ?orb_true_r; reflexivity. }
  split; [exact Hvibe|]. split; [|split].
  - intros Hfalsy. unfold generate_album_cover_prompt, field, bind. rewrite Hai.
    cbn [negb JS.get or_throw ret]. fold (value_of "imageData"). fold (value_of "imageMimeType").
    fold (value_of "mood"). fold (value_of "styles").
    destruct Hfalsy as [-> | [-> | [-> | ->]]]; cbn [negb orb]; rewrite ?orb_true_r;
      reflexivity.
  - intros Hfalsy. unfold edit_selfie_into_album_cover, field, bind. rewrite Hai.
    cbn [negb JS.get or_throw ret]. fold (value_of "imageData"). fold (value_of "imageMimeType").
    fold (value_of "prompt").
    destruct Hfalsy as [-> | [-> | ->]]; cbn [negb orb]; rewrite ?orb_true_r; reflexivity.
  - intros Hzero. apply Hvibe. destruct Hzero as [-> | [-> | ->]]; tauto.
Qed.

Lemma falsy_fields_witness :
  genAI Demo.penv = true
  /\ JS.assoc "playlistLength" DemoFalsy.zero_length = VNum 0
  /\ generate_playlist_vibe Demo.platform Demo.penv (VObj DemoFalsy.zero_length)
       (Demo.quiet "00") ∅ = ([], ∅, Ok missing_parameters).
Proof.
  split; [reflexivity|]. split; [reflexivity|].
  exact (proj2 (proj2 (proj2
    (falsy_fields_are_missing Demo.platform Demo.penv DemoFalsy.zero_length
       (Demo.quiet "00") ∅ eq_refl))) (or_introl eq_refl)).
Defined.

(** * Further properties *)

(** ** The AI endpoints of server.js, path by path *)

Lemma generate_album_cover_prompt_run P penv fields env (txns : Store) :
  let imageData := JS.assoc "imageData" fields in
  let imageMimeType := JS.assoc "imageMimeType" fields in
  let mood := JS.assoc "mood" fields in
  let styles := JS.assoc "styles" fields in
  generate_album_cover_prompt P penv (VObj fields) env txns =
  if negb (genAI penv) then ([], txns, Ok not_configured)
  else if negb (truthy imageData) || negb (truthy imageMimeType)
          || negb (truthy mood) || negb (truthy styles)
  then ([], txns, Ok missing_parameters)
  else match render P (AlbumCoverPrompt mood styles) with
       | None => ([], txns, Ok album_failed)
       | Some prompt =>
           ([EvGenerate (album_request prompt imageData imageMimeType)], txns,
            Ok match env_generate env (album_request prompt imageData imageMimeType) with
               | GenResponds _ (Some text) =>
                   if truthy (VStr text)
                   then Respond 200 (BJson (VObj [("prompt", VStr text)]))
                   else album_failed
               | _ => album_failed
               end)
       end.
Proof.
  cbv zeta. unfold generate_album_cover_prompt, field, bind at 1 2 3 4.
  destruct (negb (genAI penv)); [reflexivity|].
  cbn [JS.get or_throw ret]. cbv beta iota.
  destruct (_ || _); [reflexivity|].
  unfold try_catch, bind, generateContent, album_request.
  destruct (render P _) as [prompt|]; [|reflexivity]. cbn [or_throw ret].
  destruct (env_generate env _) as [msg|response [text|]]; try reflexivity.
  cbn [snd]. by destruct (truthy (VStr text)).
Qed.

Lemma generate_playlist_vibe_run P penv fields env (txns : Store) :
  let mood := JS.assoc "mood" fields in
  let albumPrompt := JS.assoc "albumPrompt" fields in
  let playlistLength := JS.assoc "playlistLength" fields in
  generate_playlist_vibe P penv (VObj fields) env txns =
  if negb (genAI penv) then ([], txns, Ok not_configured)
  else if negb (truthy mood) || negb (truthy albumPrompt) || negb (truthy playlistLength)
  then ([], txns, Ok missing_parameters)
  else match render P (PlaylistPrompt mood albumPrompt playlistLength) with
       | None => ([], txns, Ok playlist_failed)
       | Some prompt =>
           ([EvGenerate (playlist_request prompt)], txns,
            Ok match env_generate env (playlist_request prompt) with
               | GenResponds _ (Some text) =>
                   if truthy (VStr text) then Respond 200 (BJsonText text) else playlist_failed
               | _ => playlist_failed
               end)
       end.
Proof.
  cbv zeta. unfold generate_playlist_vibe, field, bind at 1 2 3.
  destruct (negb (genAI penv)); [reflexivity|].
  cbn [JS.get or_throw ret]. cbv beta iota.
  destruct (_ || _); [reflexivity|].
  unfold try_catch, bind, generateContent, playlist_request.
  destruct (render P _) as [prompt|]; [|reflexivity]. cbn [or_throw ret].
  destruct (env_generate env _) as [msg|response [text|]]; try reflexivity.
  cbn [snd]. by destruct (truthy (VStr text)).
Qed.

Lemma edit_selfie_into_album_cover_run P penv fields env (txns : Store) :
  let imageData := JS.assoc "imageData" fields in
  let imageMimeType := JS.assoc "imageMimeType" fields in
  let prompt := JS.assoc "prompt" fields in
  edit_selfie_into_album_cover P penv (VObj fields) env txns =
  if negb (genAI penv) then ([], txns, Ok not_configured)
  else if negb (truthy imageData) || negb (truthy imageMimeType) || negb (truthy prompt)
  then ([], txns, Ok missing_parameters)
  else match render P (SelfiePrompt prompt) with
       | None =>
           ([], txns,
            Ok (Respond 500 (BJsonError "Error editing selfie into album cover: " TypeError)))
       | Some textPart =>
           ([EvGenerate (album_request textPart imageData imageMimeType)], txns,
            Ok match env_generate env (album_request textPart imageData imageMimeType) with
               | GenRejects message =>
                   Respond 500
                     (BJsonError "Error editing selfie into album cover: " (Error message))
               | GenResponds response _ => selfie_answer response
               end)
       end.
Proof.
  cbv zeta. unfold edit_selfie_into_album_cover, field, bind at 1 2 3.
  destruct (negb (genAI penv)); [reflexivity|].
  cbn [JS.get or_throw ret]. cbv beta iota.
  destruct (_ || _); [reflexivity|].
  unfold try_catch, bind, generateContent, album_request.
  destruct (render P _) as [textPart|]; [|reflexivity]. cbn [or_throw ret].
  destruct (env_generate env _) as [msg|response text]; [reflexivity|].
  cbn [fst]. unfold selfie_answer, first_part, first_candidate. cbv zeta.
  destruct (truthy _ && truthy _); [reflexivity|].
  by destruct (truthy _ && negb _).
Qed.

Ltac answered_with :=
  unfold answered, outcome, not_configured, missing_parameters, album_failed,
    playlist_failed, selfie_answer;
  cbn [snd];
  repeat match goal with
         | |- context [if ?c then _ else _] => destruct c
         end;
  do 2 eexists; (split; [reflexivity|]); cbn; tauto.

(** X1. With an object as body, each of the three AI endpoints of server.js
    answers, whatever the model does: the handler never throws, and the
    status is 200, 400, 500 or 503. *)
Theorem ai_endpoints_always_answer :
  forall (P : Platform) (penv : ProcessEnv) (fields : list (string * value))
         (env : Env) (txns : Store),
    answered [200; 400; 500; 503]
      (generate_album_cover_prompt P penv (VObj fields) env txns)
    /\ answered [200; 400; 500; 503]
         (edit_selfie_into_album_cover P penv (VObj fields) env txns)
    /\ answered [200; 400; 500; 503]
         (generate_playlist_vibe P penv (VObj fields) env txns).
Proof.
  intros P penv fields env txns.
  rewrite generate_album_cover_prompt_run, edit_selfie_into_album_cover_run,
    generate_playlist_vibe_run.
  cbv zeta. split; [|split].
  - destruct (negb (genAI penv)); [answered_with|].
    destruct (_ || _); [answered_with|].
    destruct (render P _); [|answered_with].
    destruct (env_generate env _) as [|? [?|]]; answered_with.
  - destruct (negb (genAI penv)); [answered_with|].
    destruct (_ || _); [answered_with|].
    destruct (render P _); [|answered_with].
    destruct (env_generate env _) as [|? ?]; answered_with.
  - destruct (negb (genAI penv)); [answered_with|].
    destruct (_ || _); [answered_with|].
    destruct (render P _); [|answered_with].
    destruct (env_generate env _) as [|? [?|]]; answered_with.
Qed.

(** X2. The AI endpoints share nothing with the OAuth relay: with an object
    as body, each one leaves [txns] as it is, sends no token exchange, draws
    no state, and calls the model at most once. *)
Theorem ai_endpoints_leave_txns_alone :
  forall (P : Platform) (penv : ProcessEnv) (fields : list (string * value))
         (env : Env) (txns : Store),
    (store_after (generate_album_cover_prompt P penv (VObj fields) env txns) = txns
     /\ calls_model_at_most_once (generate_album_cover_prompt P penv (VObj fields) env txns))
    /\ (store_after (edit_selfie_into_album_cover P penv (VObj fields) env txns) = txns
        /\ calls_model_at_most_once
             (edit_selfie_into_album_cover P penv (VObj fields) env txns))
    /\ (store_after (generate_playlist_vibe P penv (VObj fields) env txns) = txns
        /\ calls_model_at_most_once (generate_playlist_vibe P penv (VObj fields) env txns)).
Proof.
  intros P penv fields env txns.
  rewrite generate_album_cover_prompt_run, edit_selfie_into_album_cover_run,
    generate_playlist_vibe_run.
  cbv zeta. unfold calls_model_at_most_once, store_after, effects.
  repeat split;
    repeat match goal with
           | |- context [if ?c then _ else _] => destruct c
           | |- context [match render ?P ?p with _ => _ end] => destruct (render P p)
           end;
    cbn [fst snd]; eauto.
Qed.

(** X3. Once the guards of server.js have passed and the prompt is built,
    [/generate-album-cover-prompt] and [/generate-playlist-vibe] hand back the
    model's text exactly as it came, the former under the key [prompt], the
    latter as the whole body with a JSON content type and without parsing it;
    a model failure, a missing text and an empty text all give the same fixed
    HTTP 500. *)
Theorem model_text_is_returned_verbatim :
  forall (P : Platform) (penv : ProcessEnv) (fields : list (string * value))
         (env : Env) (txns : Store) prompt,
    genAI penv = true ->
    let imageData := JS.assoc "imageData" fields in
    let imageMimeType := JS.assoc "imageMimeType" fields in
    let mood := JS.assoc "mood" fields in
    let styles := JS.assoc "styles" fields in
    let albumPrompt := JS.assoc "albumPrompt" fields in
    let playlistLength := JS.assoc "playlistLength" fields in
    (truthy imageData = true -> truthy imageMimeType = true ->
     truthy mood = true -> truthy styles = true ->
     render P (AlbumCoverPrompt mood styles) = Some prompt ->
     outcome (generate_album_cover_prompt P penv (VObj fields) env txns)
       = Ok match env_generate env (album_request prompt imageData imageMimeType) with
            | GenResponds _ (Some (String c text)) =>
                Respond 200 (BJson (VObj [("prompt", VStr (String c text))]))
            | _ => album_failed
            end)
    /\ (truthy mood = true -> truthy albumPrompt = true -> truthy playlistLength = true ->
        render P (PlaylistPrompt mood albumPrompt playlistLength) = Some prompt ->
        outcome (generate_playlist_vibe P penv (VObj fields) env txns)
          = Ok match env_generate env (playlist_request prompt) with
               | GenResponds _ (Some (String c text)) => Respond 200 (BJsonText (String c text))
               | _ => playlist_failed
               end).
Proof.
  intros P penv fields env txns prompt Hai. cbv zeta. split.
  - intros H1 H2 H3 H4 Hr. rewrite generate_album_cover_prompt_run. cbv zeta.
    rewrite Hai, H1, H2, H3, H4, Hr. cbn [negb orb outcome snd].
    by destruct (env_generate env _) as [|? [[|c text]|]].
  - intros H1 H2 H3 Hr. rewrite generate_playlist_vibe_run. cbv zeta.
    rewrite Hai, H1, H2, H3, Hr. cbn [negb orb outcome snd].
    by destruct (env_generate env _) as [|? [[|c text]|]].
Qed.

Lemma model_text_is_returned_verbatim_witness :
  (genAI Demo.penv = true
   /\ truthy (JS.assoc "mood" DemoFalsy.zero_length) = true
   /\ truthy (JS.assoc "albumPrompt" DemoFalsy.zero_length) = true)
  /\ outcome (generate_playlist_vibe Demo.platform Demo.penv
                (VObj [("mood", VStr "calm"); ("albumPrompt", VStr "a lake at dawn");
                       ("playlistLength", VNum 5)])
                (DemoMore.answering VNull (Some "not json at all")) ∅)
     = Ok (Respond 200 (BJsonText "not json at all")).
Proof.
  split; [by repeat split|].
  exact (proj2 (model_text_is_returned_verbatim Demo.platform Demo.penv
                  [("mood", VStr "calm"); ("albumPrompt", VStr "a lake at dawn");
                   ("playlistLength", VNum 5)]
                  (DemoMore.answering VNull (Some "not json at all")) ∅ "prompt" eq_refl)
           eq_refl eq_refl eq_refl eq_refl).
Defined.

(** X4. [/edit-selfie-into-album-cover] looks for the image in the first part
    of the first candidate only.  Once the guards have passed and the model has
    answered: if that part has [inlineData], the answer is 200 with its [data]
    and [mimeType]; if it has none, the answer is HTTP 500, whatever the other
    parts and candidates hold. *)
Theorem selfie_reads_first_part_only :
  forall (P : Platform) (penv : ProcessEnv) (fields : list (string * value))
         (env : Env) (txns : Store) textPart response text,
    genAI penv = true ->
    let imageData := JS.assoc "imageData" fields in
    let imageMimeType := JS.assoc "imageMimeType" fields in
    let prompt := JS.assoc "prompt" fields in
    truthy imageData = true -> truthy imageMimeType = true -> truthy prompt = true ->
    render P (SelfiePrompt prompt) = Some textPart ->
    env_generate env (album_request textPart imageData imageMimeType)
      = GenResponds response text ->
    let inlineData := JS.get_opt (first_part response) "inlineData" in
    (truthy inlineData = true ->
     outcome (edit_selfie_into_album_cover P penv (VObj fields) env txns)
       = Ok (Respond 200 (BJson (VObj [("imageData", JS.get_opt inlineData "data");
                                       ("mimeType", JS.get_opt inlineData "mimeType")]))))
    /\ (truthy inlineData = false ->
        exists cause,
          outcome (edit_selfie_into_album_cover P penv (VObj fields) env txns)
            = Ok (Respond 500 (BJsonError "Error editing selfie into album cover: " cause))).
Proof.
  intros P penv fields env txns textPart response text Hai imageData imageMimeType prompt
    H1 H2 H3 Hr Hgen inlineData.
  rewrite edit_selfie_into_album_cover_run. cbv zeta.
  fold imageData imageMimeType prompt.
  rewrite Hai, H1, H2, H3, Hr, Hgen. cbn [negb orb outcome snd].
  unfold selfie_answer. cbv zeta. fold inlineData. split.
  - intros Hin. rewrite Hin.
    assert (truthy (first_part response) = true) as ->; [|done].
    destruct (first_part response) eqn:E; try done; subst inlineData; by rewrite E in Hin.
  - intros Hin. rewrite Hin, andb_false_r. by eexists.
Qed.

Lemma selfie_reads_first_part_only_witness :
  (genAI Demo.penv = true
   /\ truthy (JS.assoc "imageData" DemoMore.selfie_body) = true
   /\ truthy (JS.assoc "imageMimeType" DemoMore.selfie_body) = true
   /\ truthy (JS.assoc "prompt" DemoMore.selfie_body) = true
   /\ truthy (JS.get_opt (first_part DemoMore.text_then_image) "inlineData") = false)
  /\ outcome (edit_selfie_into_album_cover Demo.platform Demo.penv
                (VObj DemoMore.selfie_body)
                (DemoMore.answering DemoMore.text_then_image (Some "Here is your cover")) ∅)
     = Ok (Respond 500
             (BJsonError "Error editing selfie into album cover: "
                (Error "No image was generated by the model. The response may have been empty or blocked."))).
Proof.
  split; [by repeat split|].
  destruct (proj2 (selfie_reads_first_part_only Demo.platform Demo.penv DemoMore.selfie_body
              (DemoMore.answering DemoMore.text_then_image (Some "Here is your cover")) ∅
              "prompt" DemoMore.text_then_image (Some "Here is your cover")
              eq_refl eq_refl eq_refl eq_refl eq_refl eq_refl) eq_refl) as [cause Hcause].
  rewrite Hcause. by vm_compute.
Defined.

(** ** What the relay keeps in [txns] *)

Lemma callback_behaviour_store_state P provider missing_state missing_code request fallback
    q env (txns : Store) :
  let txns' := store_after (callback_behaviour P provider missing_state missing_code
                              request fallback q env txns) in
  txns' = txns \/ exists state, q_state q = Some state /\ txns' = delete state txns.
Proof.
  cbv zeta. unfold callback_behaviour. pose proof (callback_path_state q) as Hq.
  destruct (callback_path q) as [|state error|state|state code].
  - by left.
  - right. exists state. split; [done|apply finish_store].
  - right. exists state. split; [done|apply finish_store].
  - destruct (exchange_outcome _ _) as [tokens|e]; [|by left].
    unfold after_exchange.
    destruct (JS.get tokens "error") as [error|]; [|by left].
    destruct (JS.get tokens "access_token") as [access_token|]; [|by left].
    right. exists state. split; [done|].
    destruct (truthy error || negb (truthy access_token));
      match goal with
      | |- context [finish ?P ?s ?d ?p ?e ?env ?t] =>
          pose proof (finish_store P s d p e env t) as Hf;
          destruct (finish P s d p e env t) as [[? ?] ?]
      end; exact Hf.
Qed.

Lemma oauth_start_store_checked penv sq env (txns : Store) :
  let txns' := store_after (oauth_start penv sq env txns) in
  txns' = txns
  \/ exists redirect,
       Str.test_http_url redirect = true
       /\ txns' = <[env_randomHex env := {| redirect := redirect |}]> txns.
Proof.
  cbv zeta. unfold oauth_start.
  destruct (negb (known_provider (q_provider sq))); [by left|].
  destruct (q_redirect sq) as [redirect|]; [|by left].
  destruct (negb (present (Some redirect)) || negb (Str.test_http_url redirect)) eqn:Hc;
    [by left|].
  apply orb_false_elim in Hc as [_ Ht%negb_false_iff].
  right. exists redirect. split; [done|]. unfold bind, randomBytes_hex, txns_set.
  by destruct (decide _).
Qed.

(** The three things a request can do to [txns]: nothing, delete the state a
    callback carries, or store a checked redirect under the state a start
    drew. *)
Lemma serve_store P penv (re : Request * Env) (txns : Store) :
  let txns' := store_after (serve P penv (fst re) (snd re) txns) in
  txns' = txns
  \/ (exists state, consumes state re /\ txns' = delete state txns)
  \/ (exists redirect,
        issues (env_randomHex (snd re)) re
        /\ Str.test_http_url redirect = true
        /\ txns' = <[env_randomHex (snd re) := {| redirect := redirect |}]> txns).
Proof.
  destruct re as [r env]. cbv zeta. cbn [fst snd].
  destruct (ai_store_unchanged P penv
              match r with
              | GenerateAlbumCoverPrompt b | EditSelfieIntoAlbumCover b
              | GeneratePlaylistVibe b => b
              | _ => VUndefined
              end) as (Ha & He & Hp).
  destruct r as [body|body|body|q|q|q|]; cbn [serve].
  - left. apply Ha.
  - left. apply He.
  - left. apply Hp.
  - destruct (oauth_start_store_checked penv q env txns) as [->|(redirect & Ht & ->)];
      [by left|].
    right. right. by exists redirect.
  - rewrite callback_spotify_run.
    destruct (callback_behaviour_store_state P "spotify" "Missing state from Spotify callback."
                "Missing code from Spotify callback." (spotify_token_request P penv)
                "Failed to exchange token with Spotify" q env txns) as [->|(s & Hs & ->)];
      [by left|].
    right. left. by exists s.
  - rewrite callback_google_run.
    destruct (callback_behaviour_store_state P "google" "Missing state from Google callback."
                "Missing code from Google callback." (google_token_request penv)
                "Failed to exchange token with Google" q env txns) as [->|(s & Hs & ->)];
      [by left|].
    right. left. by exists s.
  - by left.
Qed.

Lemma serve_all_redirects_checked P penv (rs : list (Request * Env)) (txns : Store) :
  redirects_checked txns -> redirects_checked (serve_all P penv rs txns).
Proof.
  revert txns. induction rs as [|[r env] rs IH]; intros txns Hinv; [done|].
  cbn [serve_all]. apply IH. unfold next_txns.
  destruct (outcome (serve P penv r env txns));
    [|intros state txn; by rewrite lookup_empty].
  destruct (serve_store P penv (r, env) txns)
    as [Heq|[(s & _ & Heq)|(redirect & _ & Ht & Heq)]];
    cbn [fst snd] in Heq; rewrite Heq; intros state txn.
  - apply Hinv.
  - rewrite lookup_delete. case_decide; [done|]. apply Hinv.
  - rewrite lookup_insert. case_decide; [by intros [= <-]|]. apply Hinv.
Qed.

(** X5. Whatever requests the relay has served since it started, every
    redirect pending in [txns] matched [/^https?:\/\/.+/i] when it was
    stored: [finish] never builds a target origin from an unchecked string. *)
Theorem pending_redirects_match_pattern :
  forall (P : Platform) (penv : ProcessEnv) (rs : list (Request * Env)),
    redirects_checked (serve_all P penv rs ∅).
Proof.
  intros P penv rs. apply serve_all_redirects_checked.
  intros state txn. by rewrite lookup_empty.
Qed.

Lemma pending_redirects_match_pattern_witness :
  serve_all Demo.platform Demo.penv
    [(OAuthStart Demo.start_query, Demo.quiet "77c1");
     (OAuthStart {| q_provider := Some "google"; q_redirect := Some "javascript:alert(1)" |},
      Demo.quiet "a3e0");
     (CallbackGoogle Demo.denied, Demo.quiet "00")] ∅ !! "77c1"
  = Some {| redirect := "https://app.example.com/done" |}
  /\ Str.test_http_url "https://app.example.com/done" = true.
Proof.
  assert (serve_all Demo.platform Demo.penv
    [(OAuthStart Demo.start_query, Demo.quiet "77c1");
     (OAuthStart {| q_provider := Some "google"; q_redirect := Some "javascript:alert(1)" |},
      Demo.quiet "a3e0");
     (CallbackGoogle Demo.denied, Demo.quiet "00")] ∅ !! "77c1"
  = Some {| redirect := "https://app.example.com/done" |}) as Hp by (by vm_compute).
  split; [exact Hp|].
  exact (pending_redirects_match_pattern Demo.platform Demo.penv _ "77c1" _ Hp).
Defined.

(** X6. A pending transaction lives as long as the process and no longer.
    Through a sequence of requests none of which is a callback carrying its
    state (or an [/oauth/start] that draws the same state again) it stays in
    [txns], with the redirect it was created with, when every request of the
    sequence is answered: AI requests, other starts, answered callbacks for
    other states and [GET /] leave it alone, and nothing expires it.  When a
    handler of the sequence throws, the process exits and the transaction is
    gone: its state is absent afterwards. *)
Theorem pending_transaction_persists :
  forall (P : Platform) (penv : ProcessEnv) (rs : list (Request * Env)) (txns : Store)
         state txn,
    txns !! state = Some txn ->
    Forall (fun re => ~ consumes state re /\ ~ issues state re) rs ->
    serve_all P penv rs txns !! state
      = if all_answered P penv rs txns then Some txn else None.
Proof.
  intros P penv rs txns state txn Htxn Hrs. revert txns Htxn.
  induction Hrs as [|[r env] rs [Hc Hi] Hrest IH]; intros txns Htxn; [done|].
  cbn [serve_all all_answered]. unfold next_txns.
  destruct (outcome (serve P penv r env txns)) as [resp|e].
  - apply IH.
    destruct (serve_store P penv (r, env) txns)
      as [Heq|[(s & Hs & Heq)|(redirect & Hs & _ & Heq)]];
      cbn [fst snd] in Heq; rewrite Heq.
    + done.
    + rewrite lookup_delete_ne; [done|]. by intros ->.
    + rewrite lookup_insert_ne; [done|]. by intros Heq'; apply Hi; rewrite <- Heq'.
  - apply serve_all_keeps_absent; [|apply lookup_empty].
    eapply Forall_impl; [exact Hrest|]. by intros re [_ Hre].
Qed.

Lemma pending_transaction_persists_witness :
  Demo.pending !! "5f2a" = Some {| redirect := "https://app.example.com/done" |}
  /\ serve_all Demo.platform Demo.penv
       [(OAuthStart Demo.start_query, Demo.quiet "77c1");
        (CallbackSpotify DemoMore.unknown_state, DemoCallback.granting);
        (GeneratePlaylistVibe DemoPlaylist.body, Demo.quiet "00");
        (Root, Demo.quiet "00")]
       Demo.pending !! "5f2a"
     = Some {| redirect := "https://app.example.com/done" |}
  /\ serve_all Demo.platform Demo.penv
       [(CallbackSpotify DemoMore.unknown_state, DemoFailure.bad_gateway);
        (Root, Demo.quiet "00")]
       Demo.pending !! "5f2a"
     = None.
Proof.
  assert (Demo.pending !! "5f2a" = Some {| redirect := "https://app.example.com/done" |})
    as Hp by apply lookup_singleton_eq.
  split; [exact Hp|]. split.
  - refine (eq_trans
              (pending_transaction_persists Demo.platform Demo.penv _ Demo.pending "5f2a" _ Hp _)
              _); [|by vm_compute].
    repeat (constructor; [split; unfold consumes, issues; cbn; first [discriminate|tauto]|]).
    constructor.
  - refine (eq_trans
              (pending_transaction_persists Demo.platform Demo.penv _ Demo.pending "5f2a" _ Hp _)
              _); [|by vm_compute].
    repeat (constructor; [split; unfold consumes, issues; cbn; first [discriminate|tauto]|]).
    constructor.
Defined.

(** ** Edges of the callback handlers *)

(** X7. The state is only looked up after the code has been exchanged: a
    callback that carries a code and a state that is not in [txns] (never
    issued, or consumed already) still sends the code to the provider's token
    endpoint, and answers the 400 invalid-state page once the helper has
    returned a JSON value other than [null]. *)
Theorem unknown_state_is_rejected_after_exchange :
  forall (P : Platform) (penv : ProcessEnv) (p : Provider) (q : CallbackQuery)
         (env : Env) (txns : Store) state code tokens,
    q_state q = Some state -> present (q_state q) = true ->
    present (q_error q) = false ->
    q_code q = Some code -> present (q_code q) = true ->
    txns !! state = None ->
    outcome (exchangeCode P penv p code env txns) = Ok tokens ->
    tokens <> VNull -> tokens <> VUndefined ->
    callback P penv p q env txns
      = ([EvFetch (token_request P penv p code); EvGet state], txns,
         Ok (Respond 400 BInvalidState)).
Proof.
  intros P penv p q env txns state code tokens Hq Hs He Hc Hp Hnone Hex Hnull Hundef.
  rewrite exchangeCode_run in Hex. cbn [outcome snd] in Hex.
  rewrite callback_run. unfold callback_behaviour.
  rewrite (callback_path_exchange q state code Hq Hs He Hc Hp), Hex.
  unfold after_exchange. rewrite !(get_get_opt tokens _ Hnull Hundef).
  destruct (_ || _); by rewrite finish_run, Hnone.
Qed.

Lemma unknown_state_is_rejected_after_exchange_witness :
  (q_state DemoMore.unknown_state = Some "ffff"
   /\ q_code DemoMore.unknown_state = Some "AQB7"
   /\ Demo.pending !! "ffff" = None
   /\ outcome (exchangeCode Demo.platform Demo.penv Google "AQB7"
                 DemoCallback.granting Demo.pending) = Ok DemoCallback.tokens)
  /\ callback Demo.platform Demo.penv Google DemoMore.unknown_state
       DemoCallback.granting Demo.pending
     = ([EvFetch (token_request Demo.platform Demo.penv Google "AQB7"); EvGet "ffff"],
        Demo.pending, Ok (Respond 400 BInvalidState)).
Proof.
  assert (Demo.pending !! "ffff" = None) as Hnone by (by vm_compute).
  split; [by repeat split|].
  apply (unknown_state_is_rejected_after_exchange Demo.platform Demo.penv Google
           DemoMore.unknown_state DemoCallback.granting Demo.pending "ffff" "AQB7"
           DemoCallback.tokens eq_refl eq_refl eq_refl eq_refl eq_refl Hnone eq_refl);
    discriminate.
Defined.

(** X8. A callback whose exchange gives the handler nothing to read sends no
    response.  The helper throws when the request to the token endpoint
    fails, when the answer's body is not JSON (whatever the status), and when
    the body of a non-2xx answer is [null]; for a 2xx answer whose body is
    [null] the helper returns [null] and the handler itself throws, on
    [tokens.error].  In each case the fetch is the only effect: [finish] is
    not called, so the handler neither reads nor changes [txns], and no page
    is sent.  Nothing handles the rejection: the process exits, and the
    requests that follow are served from an empty [txns]. *)
Theorem failed_helper_sends_nothing :
  forall (P : Platform) (penv : ProcessEnv) (p : Provider) (q : CallbackQuery)
         (env : Env) (txns : Store) state code,
    q_state q = Some state -> present (q_state q) = true ->
    present (q_error q) = false ->
    q_code q = Some code -> present (q_code q) = true ->
    let request := token_request P penv p code in
    let helper := outcome (exchangeCode P penv p code env txns) in
    let run := callback P penv p q env txns in
    (forall e, helper = Throw e -> run = ([EvFetch request], txns, Throw e))
    /\ (env_fetch env request = FetchRejects ->
        helper = Throw FetchFailed /\ run = ([EvFetch request], txns, Throw FetchFailed))
    /\ (forall status, env_fetch env request = FetchResponds status None ->
        helper = Throw InvalidJSON /\ run = ([EvFetch request], txns, Throw InvalidJSON))
    /\ (forall status, env_fetch env request = FetchResponds status (Some VNull) ->
        helper = (if ok status then Ok VNull else Throw TypeError)
        /\ run = ([EvFetch request], txns, Throw TypeError))
    /\ (forall e rest, outcome run = Throw e ->
        serve P penv (callback_request p q) env txns = run
        /\ serve_all P penv ((callback_request p q, env) :: rest) txns
           = serve_all P penv rest ∅).
Proof.
  intros P penv p q env txns state code Hq Hs He Hc Hp request helper run.
  subst request helper run.
  set (request := token_request P penv p code).
  rewrite exchangeCode_run. cbn [outcome snd]. fold request.
  assert (forall e, exchange_outcome (env_fetch env request) (exchange_fallback p) = Throw e ->
            callback P penv p q env txns = ([EvFetch request], txns, Throw e)) as Hthrow.
  { intros e Hex. rewrite callback_run. unfold callback_behaviour.
    rewrite (callback_path_exchange q state code Hq Hs He Hc Hp). fold request.
    by rewrite Hex. }
  split; [exact Hthrow|].
  split; [intros Hf; split; [by rewrite Hf|apply Hthrow; by rewrite Hf]|].
  split; [intros status Hf; split; [by rewrite Hf|apply Hthrow; by rewrite Hf]|].
  split.
  - intros status Hf. rewrite Hf. cbn [exchange_outcome].
    destruct (ok status) eqn:Hok; (split; [done|]).
    + rewrite callback_run. unfold callback_behaviour.
      rewrite (callback_path_exchange q state code Hq Hs He Hc Hp).
      fold request. rewrite Hf. cbn [exchange_outcome]. by rewrite Hok.
    + apply Hthrow. rewrite Hf. cbn [exchange_outcome]. by rewrite Hok.
  - intros e rest Hrun.
    assert (serve P penv (callback_request p q) env txns = callback P penv p q env txns)
      as Hserve by (by destruct p).
    split; [exact Hserve|].
    cbn [serve_all]. unfold next_txns. by rewrite Hserve, Hrun.
Qed.

Lemma failed_helper_sends_nothing_witness :
  (q_state Demo.with_code = Some "5f2a" /\ q_code Demo.with_code = Some "AQB7"
   /\ env_fetch (Demo.quiet "00") (token_request Demo.platform Demo.penv Spotify "AQB7")
      = FetchRejects)
  /\ callback Demo.platform Demo.penv Spotify Demo.with_code (Demo.quiet "00") Demo.pending
     = ([EvFetch (token_request Demo.platform Demo.penv Spotify "AQB7")], Demo.pending,
        Throw FetchFailed)
  /\ serve_all Demo.platform Demo.penv
       [(CallbackSpotify Demo.with_code, Demo.quiet "00")] Demo.pending = ∅.
Proof.
  split; [by repeat split|].
  destruct (failed_helper_sends_nothing Demo.platform Demo.penv Spotify
              Demo.with_code (Demo.quiet "00") Demo.pending "5f2a" "AQB7"
              eq_refl eq_refl eq_refl eq_refl eq_refl) as (_ & Hrejects & _ & _ & Hexit).
  split; [exact (proj2 (Hrejects eq_refl))|].
  exact (proj2 (Hexit FetchFailed [] eq_refl)).
Defined.

Lemma finish_relay_shape P state data provider isError env (txns txns' : Store)
    log status message result targetOrigin :
  finish P state data provider isError env txns
    = (log, txns', Ok (Respond status (BRelay message result targetOrigin))) ->
  status = 200
  /\ finish_result data provider isError = Some result
  /\ message = finish_message result isError.
Proof.
  rewrite finish_run. destruct (txns !! state) as [txn|]; [|discriminate].
  unfold finish_outcome.
  destruct (finish_result data provider isError) as [r|]; [|discriminate].
  destruct (URL_origin P (redirect txn)) as [o|]; [|discriminate].
  intros H. injection H as ?; subst. done.
Qed.

Lemma or_fallback_truthy e : truthy (JS.or e (VStr "An unknown error occurred.")) = true.
Proof. unfold JS.or. by destruct (truthy e) eqn:He. Qed.

Lemma finish_failure_page P state error provider env (txns txns' : Store)
    log status message result targetOrigin :
  finish P state (VObj [("error", error)]) provider true env txns
    = (log, txns', Ok (Respond status (BRelay message result targetOrigin))) ->
  let shown := JS.or error (VStr "An unknown error occurred.") in
  status = 200
  /\ message = AuthFailed shown
  /\ result = VObj [("provider", VStr provider); ("error", shown)].
Proof.
  intros (-> & Hr & ->)%finish_relay_shape. cbn in Hr. injection Hr as <-. done.
Qed.

Lemma nullish_cases (data : value) :
  (data = VNull \/ data = VUndefined) \/ (data <> VNull /\ data <> VUndefined).
Proof. destruct data; first [by left; auto | by right]. Qed.

Lemma or_truthy a b : truthy a = true -> JS.or a b = a.
Proof. unfold JS.or. by intros ->. Qed.

Lemma callback_path_inv q :
  match callback_path q with
  | MissingState => present (q_state q) = false
  | ProviderError state error =>
      q_state q = Some state /\ present (q_error q) = true /\ error = of_option (q_error q)
  | MissingCode state =>
      q_state q = Some state /\ present (q_error q) = false /\ present (q_code q) = false
  | Exchange state code =>
      q_state q = Some state /\ present (q_error q) = false
      /\ q_code q = Some code /\ present (q_code q) = true
  end.
Proof.
  unfold callback_path. destruct (q_state q) as [state|]; [|done].
  destruct (present (Some state)) eqn:Hs; [|done]. cbn [negb].
  destruct (present (q_error q)) eqn:He; [done|].
  destruct (q_code q) as [code|]; [|done].
  destruct (present (Some code)) eqn:Hc; done.
Qed.

(** X9. Every relay page a callback handler renders is answered with status
    200 and posts one of two payloads.  A success page posts
    [{ provider, token }], where the token is the truthy [access_token] of
    the token endpoint's 2xx answer to the callback's code: nothing else of
    that answer (a refresh token, scopes, expiry) reaches the page.  A
    failure page posts [{ provider, error }] and shows the same truthy
    error: the callback's [error] parameter, the fixed text for a missing
    code, a failed exchange's description, error or generic message, or a 2xx
    answer's [error], the fixed text standing in when it has none. *)
Theorem relay_page_payload :
  forall (P : Platform) (penv : ProcessEnv) (p : Provider) (q : CallbackQuery)
         (env : Env) (txns txns' : Store) log status message result targetOrigin,
    callback P penv p q env txns
      = (log, txns', Ok (Respond status (BRelay message result targetOrigin))) ->
    status = 200 /\ relay_payload P penv p q env message result.
Proof.
  intros P penv p q env txns txns' log status message result targetOrigin.
  rewrite callback_run. unfold callback_behaviour.
  pose proof (callback_path_inv q) as Hpath.
  destruct (callback_path q) as [|state error|state|state code]; [discriminate| | |].
  - destruct Hpath as (_ & He & ->).
    intros (-> & -> & ->)%finish_failure_page. split; [done|]. right.
    rewrite (or_truthy _ _ He). exists (of_option (q_error q)).
    split; [exact He|]. split; [done|]. split; [done|]. by left.
  - destruct Hpath as (_ & He & Hc).
    intros (-> & -> & ->)%finish_failure_page. split; [done|]. right.
    assert (truthy (VStr (missing_code_message p)) = true) as Ht by (by destruct p).
    rewrite (or_truthy _ _ Ht). exists (VStr (missing_code_message p)).
    split; [exact Ht|]. split; [done|]. split; [done|]. right. by left.
  - destruct Hpath as (_ & He & Hc & _).
    destruct (env_fetch env (token_request P penv p code)) as [|st [data|]] eqn:Hf;
      cbn [exchange_outcome]; [discriminate| |discriminate].
    assert (forall tokens, tokens <> VNull -> tokens <> VUndefined ->
              after_exchange P (provider_name p) state tokens env txns
              = if truthy (JS.get_opt tokens "error")
                   || negb (truthy (JS.get_opt tokens "access_token"))
                then finish P state (VObj [("error", JS.get_opt tokens "error")])
                       (provider_name p) true env txns
                else finish P state tokens (provider_name p) false env txns) as Hafter.
    { intros tokens Hn Hu. unfold after_exchange. rewrite !(get_get_opt _ _ Hn Hu).
      by destruct (_ || _). }
    assert (forall tokens, (tokens = VNull \/ tokens = VUndefined) ->
              after_exchange P (provider_name p) state tokens env txns
              = ([], txns, Throw TypeError)) as Hnull.
    { by intros tokens [-> | ->]. }
    destruct (ok st) eqn:Hok.
    + destruct (after_exchange P (provider_name p) state data env txns) as [[l t] o] eqn:E.
      cbn. intros [= _ <- ->]. revert E.
      destruct (nullish_cases data) as [Hnullish|[Hn Hu]];
        [by rewrite (Hnull data Hnullish)|].
      rewrite (Hafter data Hn Hu).
      destruct (truthy (JS.get_opt data "error")) eqn:Hte; cbn [orb negb].
      * intros (-> & -> & ->)%finish_failure_page. split; [done|]. right.
        exists (JS.or (JS.get_opt data "error") (VStr "An unknown error occurred.")).
        split; [apply or_fallback_truthy|]. split; [done|]. split; [done|].
        right. right. exists code, st, data. by rewrite Hok.
      * destruct (truthy (JS.get_opt data "access_token")) eqn:Hta; cbn [negb].
        -- intros (-> & Hr & ->)%finish_relay_shape. split; [done|]. left.
           unfold finish_result in Hr. rewrite (get_get_opt _ _ Hn Hu) in Hr.
           cbn in Hr. injection Hr as <-.
           by exists code, st, data.
        -- intros (-> & -> & ->)%finish_failure_page. split; [done|]. right.
           exists (JS.or (JS.get_opt data "error") (VStr "An unknown error occurred.")).
           split; [apply or_fallback_truthy|]. split; [done|]. split; [done|].
           right. right. exists code, st, data. by rewrite Hok.
    + unfold exchange_error_value.
      destruct (nullish_cases data) as [[-> | ->]|[Hn Hu]]; [discriminate..|].
      rewrite !(get_get_opt _ _ Hn Hu). cbn [mbind option_bind].
      fold (provider_error data (exchange_fallback p)).
      rewrite Hafter; [|discriminate|discriminate].
      cbn [JS.get_opt JS.assoc String.eqb Ascii.eqb Bool.eqb].
      rewrite provider_error_truthy. cbn [orb].
      destruct (finish _ _ _ _ _ _ _) as [[l t] o] eqn:E.
      cbn. intros [= _ <- ->]. revert E.
      intros (-> & -> & ->)%finish_failure_page. split; [done|]. right.
      rewrite (or_truthy _ _ (provider_error_truthy data p)).
      exists (provider_error data (exchange_fallback p)).
      split; [apply provider_error_truthy|]. split; [done|]. split; [done|].
      right. right. exists code, st, data. by rewrite Hok.
Qed.

Lemma relay_page_payload_witness :
  callback Demo.platform Demo.penv Spotify Demo.with_code
    (Demo.env "00"
       (FetchResponds 200
          (Some (VObj [("access_token", VStr "BQDx"); ("refresh_token", VStr "AQCr");
                       ("expires_in", VNum 3600)])))
       (GenRejects "offline"))
    Demo.pending
  = ([EvFetch (token_request Demo.platform Demo.penv Spotify "AQB7");
      EvGet "5f2a"; EvDelete "5f2a"], ∅,
     Ok (Respond 200
           (BRelay AuthSuccessful
              (VObj [("provider", VStr "spotify"); ("token", VStr "BQDx")])
              "https://app.example.com")))
  /\ relay_payload Demo.platform Demo.penv Spotify Demo.with_code
       (Demo.env "00"
          (FetchResponds 200
             (Some (VObj [("access_token", VStr "BQDx"); ("refresh_token", VStr "AQCr");
                          ("expires_in", VNum 3600)])))
          (GenRejects "offline"))
       AuthSuccessful
       (VObj [("provider", VStr "spotify"); ("token", VStr "BQDx")]).
Proof.
  assert (callback Demo.platform Demo.penv Spotify Demo.with_code
    (Demo.env "00"
       (FetchResponds 200
          (Some (VObj [("access_token", VStr "BQDx"); ("refresh_token", VStr "AQCr");
                       ("expires_in", VNum 3600)])))
       (GenRejects "offline"))
    Demo.pending
  = ([EvFetch (token_request Demo.platform Demo.penv Spotify "AQB7");
      EvGet "5f2a"; EvDelete "5f2a"], ∅,
     Ok (Respond 200
           (BRelay AuthSuccessful
              (VObj [("provider", VStr "spotify"); ("token", VStr "BQDx")])
              "https://app.example.com")))) as Hrun by (by vm_compute).
  split; [exact Hrun|].
  exact (proj2 (relay_page_payload Demo.platform Demo.penv Spotify Demo.with_code _
                  Demo.pending _ _ _ _ _ _ Hrun)).
Defined.

(** X10. A 2xx answer of the token endpoint whose body is a JSON value other
    than [null] and carries neither a truthy [access_token] nor a truthy
    [error] is relayed, the stored redirect being a URL, as a failure with
    the fixed text "An unknown error occurred."; the transaction is consumed
    all the same. *)
Theorem empty_grant_is_unknown_error :
  forall (P : Platform) (penv : ProcessEnv) (p : Provider) (q : CallbackQuery)
         (env : Env) (txns : Store) state code txn status data targetOrigin,
    q_state q = Some state -> present (q_state q) = true ->
    present (q_error q) = false ->
    q_code q = Some code -> present (q_code q) = true ->
    txns !! state = Some txn ->
    URL_origin P (redirect txn) = Some targetOrigin ->
    env_fetch env (token_request P penv p code) = FetchResponds status (Some data) ->
    ok status = true ->
    data <> VNull -> data <> VUndefined ->
    truthy (JS.get_opt data "error") = false ->
    truthy (JS.get_opt data "access_token") = false ->
    callback P penv p q env txns
      = ([EvFetch (token_request P penv p code); EvGet state; EvDelete state],
         delete state txns,
         Ok (Respond 200
               (BRelay (AuthFailed (VStr "An unknown error occurred."))
                  (VObj [("provider", VStr (provider_name p));
                         ("error", VStr "An unknown error occurred.")])
                  targetOrigin))).
Proof.
  intros P penv p q env txns state code txn status data targetOrigin
    Hq Hs He Hc Hp Htxn Ho Hfetch Hok Hnull Hundef Herr Htok.
  rewrite callback_run. unfold callback_behaviour.
  rewrite (callback_path_exchange q state code Hq Hs He Hc Hp), Hfetch.
  cbn [exchange_outcome]. rewrite Hok.
  unfold after_exchange. rewrite !(get_get_opt data _ Hnull Hundef), Herr, Htok.
  cbn [orb negb]. rewrite finish_run, Htxn.
  unfold finish_outcome, finish_result, finish_message. cbn [JS.get JS.assoc String.eqb].
  cbn. rewrite Ho. unfold JS.or. by rewrite Herr.
Qed.

Lemma empty_grant_is_unknown_error_witness :
  (q_state Demo.with_code = Some "5f2a" /\ q_code Demo.with_code = Some "AQB7"
   /\ Demo.pending !! "5f2a" = Some {| redirect := "https://app.example.com/done" |}
   /\ ok 200 = true)
  /\ callback Demo.platform Demo.penv Spotify Demo.with_code DemoMore.empty_grant Demo.pending
     = ([EvFetch (token_request Demo.platform Demo.penv Spotify "AQB7");
         EvGet "5f2a"; EvDelete "5f2a"],
        delete "5f2a" Demo.pending,
        Ok (Respond 200
              (BRelay (AuthFailed (VStr "An unknown error occurred."))
                 (VObj [("provider", VStr "spotify");
                        ("error", VStr "An unknown error occurred.")])
                 "https://app.example.com"))).
Proof.
  assert (Demo.pending !! "5f2a" = Some {| redirect := "https://app.example.com/done" |})
    as Hp by apply lookup_singleton_eq.
  split; [by repeat split|].
  apply (empty_grant_is_unknown_error Demo.platform Demo.penv Spotify Demo.with_code
           DemoMore.empty_grant Demo.pending "5f2a" "AQB7"
           {| redirect := "https://app.example.com/done" |} 200 (VObj [])
           "https://app.example.com" eq_refl eq_refl eq_refl eq_refl eq_refl Hp
           eq_refl eq_refl eq_refl);
    first [discriminate|reflexivity].
Defined.

Lemma oauth_start_valid_store penv provider target env (txns : Store) :
  provider = "spotify" \/ provider = "google" ->
  Str.test_http_url target = true ->
  store_after (oauth_start penv {| q_provider := Some provider; q_redirect := Some target |}
                 env txns)
  = <[env_randomHex env := {| redirect := target |}]> txns.
Proof.
  intros Hprovider Hurl. unfold oauth_start. cbn [q_provider q_redirect].
  rewrite (test_http_url_nonempty target Hurl), Hurl.
  destruct Hprovider as [-> | ->]; reflexivity.
Qed.

(** X11. The pattern [/oauth/start] checks is weaker than what [new URL]
    accepts.  When a start is accepted with a redirect that [new URL] rejects,
    the callback for the state it drew (here one reporting a provider error)
    deletes the transaction and then throws: no page is sent and the state is
    spent. *)
Theorem unparsable_redirect_spends_state :
  forall (P : Platform) (penv : ProcessEnv) (provider redirect : string) (env0 : Env)
         (txns0 : Store) (p : Provider) (q : CallbackQuery) (env : Env),
    provider = "spotify" \/ provider = "google" ->
    Str.test_http_url redirect = true ->
    URL_origin P redirect = None ->
    let state := env_randomHex env0 in
    state <> "" ->
    q_state q = Some state ->
    present (q_error q) = true ->
    let txns1 :=
      store_after (oauth_start penv {| q_provider := Some provider;
                                       q_redirect := Some redirect |} env0 txns0) in
    txns1 !! state = Some {| redirect := redirect |}
    /\ callback P penv p q env txns1
       = ([EvGet state; EvDelete state], delete state txns1, Throw InvalidURL).
Proof.
  intros P penv provider r env0 txns0 p q env Hprov Hurl Hnone state Hne Hq Herr txns1.
  subst state. set (state := env_randomHex env0) in *.
  assert (txns1 = <[state := {| redirect := r |}]> txns0) as Htxns1
    by (subst txns1; by apply oauth_start_valid_store).
  assert (<[state := {| redirect := r |}]> txns0 !! state = Some {| redirect := r |})
    as Hlook by apply lookup_insert_eq.
  rewrite Htxns1. split; [exact Hlook|].
  rewrite callback_run. unfold callback_behaviour.
  assert (present (q_state q) = true) as Hs.
  { rewrite Hq. cbn. by apply negb_true_iff, String.eqb_neq. }
  rewrite (callback_path_error q state Hq Hs Herr), finish_run, Hlook.
  unfold finish_outcome. cbn [redirect]. rewrite Hnone.
  by destruct (q_error q).
Qed.

Lemma unparsable_redirect_spends_state_witness :
  (Str.test_http_url "http://a b" = true
   /\ URL_origin Demo.platform "http://a b" = None
   /\ q_state DemoMore.denied_unparsable = Some "9c0d"
   /\ present (q_error DemoMore.denied_unparsable) = true)
  /\ callback Demo.platform Demo.penv Spotify DemoMore.denied_unparsable (Demo.quiet "00")
       (store_after (oauth_start Demo.penv
                       {| q_provider := Some "spotify"; q_redirect := Some "http://a b" |}
                       (Demo.quiet "9c0d") ∅))
     = ([EvGet "9c0d"; EvDelete "9c0d"],
        delete "9c0d"
          (store_after (oauth_start Demo.penv
                          {| q_provider := Some "spotify"; q_redirect := Some "http://a b" |}
                          (Demo.quiet "9c0d") ∅)),
        Throw InvalidURL).
Proof.
  split; [by repeat split|].
  refine (proj2 (unparsable_redirect_spends_state Demo.platform Demo.penv "spotify"
                   "http://a b" (Demo.quiet "9c0d") ∅ Spotify DemoMore.denied_unparsable
                   (Demo.quiet "00") (or_introl eq_refl) eq_refl eq_refl _ eq_refl eq_refl)).
  discriminate.
Defined.

(** ** The two patterns *)

Lemma strip_prefix_ci_spec (p s rest : string) :
  Str.strip_prefix_ci p s = Some rest
  <-> exists pre, s = pre +:+ rest /\ lower_string pre = lower_string p.
Proof.
  revert s. induction p as [|a p IH]; intros s; cbn [Str.strip_prefix_ci lower_string].
  - split.
    + intros [= ->]. by exists "".
    + intros (pre & -> & Hpre). by destruct pre.
  - destruct s as [|b s].
    + split; [discriminate|]. intros (pre & Hs & Hpre). by destruct pre.
    + destruct (Ascii.eqb (Str.lower a) (Str.lower b)) eqn:Hab.
      * apply Ascii.eqb_eq in Hab. rewrite IH. split.
        -- intros (pre & -> & Hpre). exists (String b pre). split; [done|].
           cbn [lower_string]. by rewrite Hpre, Hab.
        -- intros (pre & Hs & Hpre). destruct pre as [|c pre]; [discriminate|].
           rewrite append_cons in Hs. injection Hs as -> ->.
           cbn [lower_string] in Hpre. injection Hpre as _ Hpre. by exists pre.
      * apply Ascii.eqb_neq in Hab. split; [discriminate|].
        intros (pre & Hs & Hpre). destruct pre as [|c pre]; [discriminate|].
        rewrite append_cons in Hs. injection Hs as -> ->.
        cbn [lower_string] in Hpre. injection Hpre as Hc _. congruence.
Qed.

Lemma strip_prefix_ci_app (p1 p2 s : string) :
  Str.strip_prefix_ci (p1 +:+ p2) s
  = match Str.strip_prefix_ci p1 s with
    | Some r => Str.strip_prefix_ci p2 r
    | None => None
    end.
Proof.
  revert s. induction p1 as [|a p1 IH]; intros s; [done|].
  rewrite append_cons. cbn [Str.strip_prefix_ci].
  destruct s as [|b s]; [done|]. by destruct (Ascii.eqb _ _).
Qed.

Lemma test_http_url_schemes (s : string) :
  Str.test_http_url s
  = match Str.strip_prefix_ci "https://" s with
    | Some r => Str.dot_plus r
    | None => false
    end
    || match Str.strip_prefix_ci "http://" s with
       | Some r => Str.dot_plus r
       | None => false
       end.
Proof.
  unfold Str.test_http_url, Str.after.
  change "https://" with ("http" +:+ ("s" +:+ "://")).
  change "http://" with ("http" +:+ "://").
  rewrite !strip_prefix_ci_app.
  destruct (Str.strip_prefix_ci "http" s) as [r|]; [|done].
  rewrite strip_prefix_ci_app. by destruct (Str.strip_prefix_ci "s" r).
Qed.

(** X12. [/oauth/start] accepts a redirect exactly when it is [http://] or
    [https://], in any letter case, followed by at least one character that
    is not a line terminator; nothing else about the string is checked, so
    any host and any trailing text pass. *)
Theorem redirect_pattern_accepts :
  forall (s : string),
    Str.test_http_url s = true
    <-> exists scheme c rest,
          s = scheme +:+ String c rest
          /\ (lower_string scheme = "http://" \/ lower_string scheme = "https://")
          /\ Str.is_line_terminator c = false.
Proof.
  intros s. rewrite test_http_url_schemes, orb_true_iff. split.
  - intros [H|H].
    + destruct (Str.strip_prefix_ci "https://" s) as [r|] eqn:E; [|discriminate].
      apply strip_prefix_ci_spec in E as (scheme & -> & Hscheme).
      destruct r as [|c rest]; [discriminate|]. exists scheme, c, rest.
      split; [done|]. split; [by right|]. by apply negb_true_iff.
    + destruct (Str.strip_prefix_ci "http://" s) as [r|] eqn:E; [|discriminate].
      apply strip_prefix_ci_spec in E as (scheme & -> & Hscheme).
      destruct r as [|c rest]; [discriminate|]. exists scheme, c, rest.
      split; [done|]. split; [by left|]. by apply negb_true_iff.
  - intros (scheme & c & rest & -> & [Hscheme|Hscheme] & Hc).
    + right.
      assert (Str.strip_prefix_ci "http://" (scheme +:+ String c rest) = Some (String c rest))
        as ->; [apply strip_prefix_ci_spec; by exists scheme|].
      cbn. by rewrite Hc.
    + left.
      assert (Str.strip_prefix_ci "https://" (scheme +:+ String c rest) = Some (String c rest))
        as ->; [apply strip_prefix_ci_spec; by exists scheme|].
      cbn. by rewrite Hc.
Qed.

Lemma redirect_pattern_accepts_witness :
  ("HTTPS://evil.example/x y" = "HTTPS://" +:+ String "e" "vil.example/x y"
   /\ lower_string "HTTPS://" = "https://"
   /\ Str.is_line_terminator "e" = false)
  /\ Str.test_http_url "HTTPS://evil.example/x y" = true.
Proof.
  split; [by repeat split|].
  apply (proj2 (redirect_pattern_accepts "HTTPS://evil.example/x y")).
  exists "HTTPS://", "e"%char, "vil.example/x y".
  split; [reflexivity|]. split; [right; reflexivity|reflexivity].
Defined.

Lemma strip_prefix_ci_none_fence (p x : string) :
  no_backtick p ->
  Str.strip_prefix_ci p x = None ->
  Str.strip_prefix_ci p (x +:+ "```") = None.
Proof.
  revert x. induction p as [|a p IH]; intros x Hp Hx; [discriminate|].
  destruct Hp as [Ha Hp]. destruct x as [|b x].
  - change ("" +:+ "```") with "```". cbn [Str.strip_prefix_ci].
    destruct (Ascii.eqb (Str.lower a) (Str.lower "`")) eqn:E; [|done].
    apply Ascii.eqb_eq in E. by destruct Ha.
  - rewrite append_cons. cbn [Str.strip_prefix_ci] in *.
    destruct (Ascii.eqb (Str.lower a) (Str.lower b)); [by apply IH|done].
Qed.

(** X13. What the revised playlist handler parses.  A model text that, once
    trimmed, is wrapped in a fence tagged [json] in any letter case, or in an
    untagged fence, is replaced by the trimmed text between the fences; a text
    that does not begin with three backticks is only trimmed; and a missing
    text is parsed as the empty string. *)
Theorem json_text_cases :
  forall (t x : string),
    (forall tag, Str.trim t = "```" +:+ tag +:+ x +:+ "```" ->
                 lower_string tag = "json" ->
                 JsonSafe.json_text (Some t) = Str.trim (Str.trim x))
    /\ (Str.trim t = "```" +:+ x +:+ "```" ->
        Str.strip_prefix_ci "json" x = None ->
        JsonSafe.json_text (Some t) = Str.trim (Str.trim x))
    /\ (Str.strip_prefix "```" (Str.trim t) = None ->
        JsonSafe.json_text (Some t) = Str.trim t)
    /\ JsonSafe.json_text None = "".
Proof.
  intros t x. unfold JsonSafe.json_text. split; [|split; [|split]].
  - intros tag Ht Htag. rewrite Ht. unfold Str.match_fence.
    rewrite strip_prefix_app.
    assert (Str.strip_prefix_ci "json" (tag +:+ x +:+ "```") = Some (x +:+ "```")) as ->.
    { apply strip_prefix_ci_spec. by exists tag. }
    rewrite (trim_start_app x "`"%char "``" eq_refl).
    change (String "`"%char "``") with "```".
    by rewrite strip_suffix_app.
  - intros Ht Hx. rewrite Ht. unfold Str.match_fence.
    rewrite strip_prefix_app.
    rewrite (strip_prefix_ci_none_fence "json" x); [|by repeat split|done].
    rewrite (trim_start_app x "`"%char "``" eq_refl).
    change (String "`"%char "``") with "```".
    by rewrite strip_suffix_app.
  - intros Hnone. unfold Str.match_fence. by rewrite Hnone.
  - reflexivity.
Qed.

Lemma json_text_cases_witness :
  (Str.trim " ```Json [1,2] ``` " = "```" +:+ "Json" +:+ " [1,2] " +:+ "```"
   /\ lower_string "Json" = "json")
  /\ JsonSafe.json_text (Some " ```Json [1,2] ``` ") = "[1,2]".
Proof.
  split; [by split|].
  exact (proj1 (json_text_cases " ```Json [1,2] ``` " " [1,2] ") "Json" eq_refl eq_refl).
Defined.

(** ** A request without a body *)

Lemma json_safe_playlist_run P penv body env (txns : Store) :
  let fields := JS.or body (VObj []) in
  let mood := JS.get_opt fields "mood" in
  let albumPrompt := JS.get_opt fields "albumPrompt" in
  let playlistLength := JS.get_opt fields "playlistLength" in
  JsonSafe.generate_playlist_vibe P penv body env txns =
  if negb (JsonSafe.ai penv) then ([], txns, Ok not_configured)
  else if negb (truthy mood) || negb (truthy albumPrompt) || negb (truthy playlistLength)
  then ([], txns, Ok missing_parameters)
  else match render P (PlaylistJsonPrompt mood albumPrompt playlistLength) with
       | None => ([], txns, Ok playlist_failed)
       | Some prompt =>
           ([EvGenerate (playlist_json_request prompt)], txns,
            Ok match env_generate env (playlist_json_request prompt) with
               | GenRejects _ => playlist_failed
               | GenResponds _ text =>
                   match JSON_parse P (JsonSafe.json_text text) with
                   | Some data => Respond 200 (BJson data)
                   | None => playlist_unparsed
                   end
               end)
       end.
Proof.
  cbv zeta. unfold JsonSafe.generate_playlist_vibe. cbv zeta.
  destruct (negb (JsonSafe.ai penv)); [reflexivity|].
  destruct (negb (truthy (JS.get_opt (JS.or body (VObj [])) "mood"))
            || negb (truthy (JS.get_opt (JS.or body (VObj [])) "albumPrompt"))
            || negb (truthy (JS.get_opt (JS.or body (VObj [])) "playlistLength")));
    [reflexivity|].
  unfold try_catch, bind, generateContent, playlist_json_request.
  match goal with |- context [render P ?x] => destruct (render P x) as [prompt|] end; [|reflexivity]. cbn [or_throw ret].
  match goal with |- context [env_generate env ?x] => destruct (env_generate env x) as [msg|response text] end; [reflexivity|].
  cbn [snd]. by destruct (JSON_parse P (JsonSafe.json_text text)).
Qed.

(** X14. The revised [/generate-playlist-vibe] reads [req.body || {}]: it
    answers every request, with status 200, 400, 500, 502 or 503, leaves
    [txns] alone and calls the model at most once, whatever [req.body] is.
    With a credential configured, a body without fields (the [{}] that
    [express.json()] leaves for a request that carries no JSON) gets HTTP 400
    and the model is not called; so does a falsy body, for which [{}] stands
    in. *)
Theorem playlist_without_body :
  forall (P : Platform) (penv : ProcessEnv) (body : value) (env : Env) (txns : Store),
    (answered [200; 400; 500; 502; 503]
       (JsonSafe.generate_playlist_vibe P penv body env txns)
     /\ store_after (JsonSafe.generate_playlist_vibe P penv body env txns) = txns
     /\ calls_model_at_most_once (JsonSafe.generate_playlist_vibe P penv body env txns))
    /\ (JsonSafe.ai penv = true -> body = VObj [] \/ truthy body = false ->
        JsonSafe.generate_playlist_vibe P penv body env txns
          = ([], txns, Ok missing_parameters)).
Proof.
  intros P penv body env txns. split.
  - rewrite json_safe_playlist_run. cbv zeta.
    destruct (negb (JsonSafe.ai penv)); [|destruct (_ || _)];
      [| |destruct (render P _) as [prompt|];
          [destruct (env_generate env _) as [msg|response text];
           [|destruct (JSON_parse P _)]|]];
      unfold answered, calls_model_at_most_once, store_after, effects, outcome,
        not_configured, missing_parameters, playlist_failed, playlist_unparsed;
      cbn; eauto 12.
  - intros Hai Hbody. rewrite json_safe_playlist_run. cbv zeta. rewrite Hai.
    destruct Hbody as [-> | Hfalsy]; [done|].
    unfold JS.or. by rewrite Hfalsy.
Qed.

Lemma playlist_without_body_witness :
  JsonSafe.ai Demo.penv = true
  /\ JsonSafe.generate_playlist_vibe Demo.platform Demo.penv (VObj []) (Demo.quiet "00") ∅
     = ([], ∅, Ok missing_parameters)
  /\ JsonSafe.generate_playlist_vibe Demo.platform Demo.penv VUndefined (Demo.quiet "00") ∅
     = ([], ∅, Ok missing_parameters).
Proof.
  split; [done|].
  destruct (playlist_without_body Demo.platform Demo.penv (VObj []) (Demo.quiet "00") ∅)
    as (_ & Hempty).
  destruct (playlist_without_body Demo.platform Demo.penv VUndefined (Demo.quiet "00") ∅)
    as (_ & Hfalsy).
  split; [exact (Hempty eq_refl (or_introl eq_refl))|exact (Hfalsy eq_refl (or_intror eq_refl))].
Defined.

(** ** The first revision of the relay *)

Lemma legacy_finish_run URL_parse (state : option string) tokens env (txns : Store) :
  Legacy.finish URL_parse state tokens env txns =
  match state with
  | None => ([], txns, Ok (Respond 400 (BText "bad state")))
  | Some s =>
      match txns !! s with
      | None => ([EvGet s], txns, Ok (Respond 400 (BText "bad state")))
      | Some txn =>
          ([EvGet s; EvDelete s], delete s txns,
           match URL_parse (redirect txn) with
           | Some url => Ok (RedirectTo (set_param "ok" "1" url))
           | None => Throw InvalidURL
           end)
      end
  end.
Proof.
  unfold Legacy.finish. destruct state as [s|]; [|reflexivity].
  unfold bind, txns_get, txns_delete.
  destruct (txns !! s) as [txn|]; [|reflexivity].
  cbn. by destruct (URL_parse (redirect txn)).
Qed.

Lemma legacy_callback_spotify_run P URL_parse penv q env (txns : Store) :
  let request := spotify_token_request P penv (to_string (q_code q)) in
  Legacy.callback_spotify P URL_parse penv q env txns =
  match env_fetch env request with
  | FetchRejects => ([EvFetch request], txns, Throw FetchFailed)
  | FetchResponds _ None => ([EvFetch request], txns, Throw InvalidJSON)
  | FetchResponds _ (Some tokens) =>
      preceded_by [EvFetch request] (Legacy.finish URL_parse (q_state q) tokens env txns)
  end.
Proof.
  cbv zeta. unfold Legacy.callback_spotify, Legacy.exchangeSpotify, bind, fetch.
  by destruct (env_fetch env _) as [|status [tokens|]].
Qed.

Lemma legacy_callback_google_run URL_parse penv q env (txns : Store) :
  let request := google_token_request penv (to_string (q_code q)) in
  Legacy.callback_google URL_parse penv q env txns =
  match env_fetch env request with
  | FetchRejects => ([EvFetch request], txns, Throw FetchFailed)
  | FetchResponds _ None => ([EvFetch request], txns, Throw InvalidJSON)
  | FetchResponds _ (Some tokens) =>
      preceded_by [EvFetch request] (Legacy.finish URL_parse (q_state q) tokens env txns)
  end.
Proof.
  cbv zeta. unfold Legacy.callback_google, Legacy.exchangeGoogle, bind, fetch.
  by destruct (env_fetch env _) as [|status [tokens|]].
Qed.

(** X15. In the first revision of the relay, [finish] does not look at what
    the token endpoint answered: whenever the endpoint answers with JSON, be it
    a token or an error with a non-2xx status, a callback whose state is
    pending deletes the transaction and redirects the browser to the stored
    redirect with [ok=1]. *)
Theorem legacy_redirects_ok_whatever_the_answer :
  forall (P : Platform) (URL_parse : string -> option URL) (penv : ProcessEnv)
         (q : CallbackQuery) (env : Env) (txns : Store) state txn url,
    q_state q = Some state ->
    txns !! state = Some txn ->
    URL_parse (redirect txn) = Some url ->
    (forall status data,
       env_fetch env (spotify_token_request P penv (to_string (q_code q)))
         = FetchResponds status (Some data) ->
       Legacy.callback_spotify P URL_parse penv q env txns
         = ([EvFetch (spotify_token_request P penv (to_string (q_code q)));
             EvGet state; EvDelete state],
            delete state txns, Ok (RedirectTo (set_param "ok" "1" url))))
    /\ (forall status data,
          env_fetch env (google_token_request penv (to_string (q_code q)))
            = FetchResponds status (Some data) ->
          Legacy.callback_google URL_parse penv q env txns
            = ([EvFetch (google_token_request penv (to_string (q_code q)));
                EvGet state; EvDelete state],
               delete state txns, Ok (RedirectTo (set_param "ok" "1" url)))).
Proof.
  intros P URL_parse penv q env txns state txn url Hq Htxn Hurl. split.
  - intros status data Hfetch.
    rewrite legacy_callback_spotify_run. cbv zeta.
    by rewrite Hfetch, legacy_finish_run, Hq, Htxn, Hurl.
  - intros status data Hfetch.
    rewrite legacy_callback_google_run. cbv zeta.
    by rewrite Hfetch, legacy_finish_run, Hq, Htxn, Hurl.
Qed.

Lemma legacy_redirects_ok_witness :
  (q_state Demo.with_code = Some "5f2a"
   /\ Demo.pending !! "5f2a" = Some {| redirect := "https://app.example.com/done" |}
   /\ DemoMore.URL_parse "https://app.example.com/done"
      = Some {| url_base := "https://app.example.com/done"; searchParams := [] |})
  /\ Legacy.callback_spotify Demo.platform DemoMore.URL_parse Demo.penv Demo.with_code
       DemoMore.invalid_grant Demo.pending
     = ([EvFetch (spotify_token_request Demo.platform Demo.penv "AQB7");
         EvGet "5f2a"; EvDelete "5f2a"],
        delete "5f2a" Demo.pending,
        Ok (RedirectTo {| url_base := "https://app.example.com/done";
                          searchParams := [("ok", "1")] |})).
Proof.
  assert (Demo.pending !! "5f2a" = Some {| redirect := "https://app.example.com/done" |})
    as Hp by apply lookup_singleton_eq.
  split; [by repeat split|].
  exact (proj1 (legacy_redirects_ok_whatever_the_answer Demo.platform DemoMore.URL_parse
                  Demo.penv Demo.with_code DemoMore.invalid_grant Demo.pending "5f2a"
                  {| redirect := "https://app.example.com/done" |}
                  {| url_base := "https://app.example.com/done"; searchParams := [] |}
                  eq_refl Hp eq_refl)
           400 (VObj [("error", VStr "invalid_grant")]) eq_refl).
Defined.

(** X16. In the first revision a callback handler starts with the token
    exchange, before it has looked at anything: the request is sent for every
    callback, with the code [undefined] when the query has none; a callback
    without a state, or with one that is not pending, is answered 400 "bad
    state" only after the token endpoint has answered, and gets no response at
    all when the exchange fails. *)
Theorem legacy_exchanges_before_checking :
  forall (P : Platform) (URL_parse : string -> option URL) (penv : ProcessEnv)
         (q : CallbackQuery) (env : Env) (txns : Store),
    let request := spotify_token_request P penv (to_string (q_code q)) in
    (exists rest,
       effects (Legacy.callback_spotify P URL_parse penv q env txns) = EvFetch request :: rest)
    /\ (q_code q = None -> In ("code", "undefined") (fr_body request))
    /\ (forall status data,
          env_fetch env request = FetchResponds status (Some data) ->
          match q_state q with
          | None => True
          | Some state => txns !! state = None
          end ->
          outcome (Legacy.callback_spotify P URL_parse penv q env txns)
            = Ok (Respond 400 (BText "bad state"))
          /\ store_after (Legacy.callback_spotify P URL_parse penv q env txns) = txns)
    /\ (env_fetch env request = FetchRejects
        \/ (exists status, env_fetch env request = FetchResponds status None) ->
        exists e,
          Legacy.callback_spotify P URL_parse penv q env txns
            = ([EvFetch request], txns, Throw e)).
Proof.
  intros P URL_parse penv q env txns request.
  rewrite legacy_callback_spotify_run. cbv zeta. fold request.
  split; [|split; [|split]].
  - destruct (env_fetch env request) as [|status [data|]]; [by eexists| |by eexists].
    rewrite legacy_finish_run.
    destruct (q_state q) as [s|]; [destruct (txns !! s)|]; by eexists.
  - intros Hc. subst request. rewrite Hc. cbn. tauto.
  - intros status data Hfetch Hstate. rewrite Hfetch, legacy_finish_run.
    destruct (q_state q) as [s|]; [by rewrite Hstate|done].
  - intros [Hf|[status Hf]]; rewrite Hf; by eexists.
Qed.

Lemma legacy_exchanges_before_checking_witness :
  (q_code DemoMore.denied_unparsable = None
   /\ env_fetch DemoMore.invalid_grant
        (spotify_token_request Demo.platform Demo.penv "undefined")
      = FetchResponds 400 (Some (VObj [("error", VStr "invalid_grant")]))
   /\ Demo.pending !! "9c0d" = None)
  /\ Legacy.callback_spotify Demo.platform DemoMore.URL_parse Demo.penv
       DemoMore.denied_unparsable DemoMore.invalid_grant Demo.pending
     = ([EvFetch (spotify_token_request Demo.platform Demo.penv "undefined"); EvGet "9c0d"],
        Demo.pending, Ok (Respond 400 (BText "bad state")))
  /\ outcome (Legacy.callback_spotify Demo.platform DemoMore.URL_parse Demo.penv
                DemoMore.denied_unparsable DemoMore.invalid_grant Demo.pending)
     = Ok (Respond 400 (BText "bad state")).
Proof.
  assert (Demo.pending !! "9c0d" = None) as Hnone by (by vm_compute).
  split; [by repeat split|]. split; [by vm_compute|].
  exact (proj1 (proj1 (proj2 (proj2
    (legacy_exchanges_before_checking Demo.platform DemoMore.URL_parse Demo.penv
       DemoMore.denied_unparsable DemoMore.invalid_grant Demo.pending)))
    400 (VObj [("error", VStr "invalid_grant")]) eq_refl Hnone)).
Defined.

(** ** A whole flow *)

Lemma answered_callback_consumes P penv p q env (txns : Store) state response :
  q_state q = Some state -> present (q_state q) = true ->
  outcome (callback P penv p q env txns) = Ok response ->
  store_after (callback P penv p q env txns) = delete state txns.
Proof.
  intros Hq Hs. rewrite callback_run. unfold callback_behaviour.
  destruct (present (q_error q)) eqn:He.
  { rewrite (callback_path_error q state Hq Hs He). intros _. apply finish_store. }
  destruct (present (q_code q)) eqn:Hp.
  2: { rewrite (callback_path_missing_code q state Hq Hs He Hp). intros _.
       apply finish_store. }
  assert (exists code, q_code q = Some code) as [code Hc]
    by (destruct (q_code q) as [c|]; [by exists c|discriminate]).
  rewrite (callback_path_exchange q state code Hq Hs He Hc Hp).
  destruct (exchange_outcome _ _) as [tokens|e]; [|discriminate].
  unfold after_exchange.
  destruct (JS.get tokens "error") as [error|]; [|discriminate].
  destruct (JS.get tokens "access_token") as [access_token|]; [|discriminate].
  intros _.
  destruct (truthy error || negb (truthy access_token));
    match goal with
    | |- context [finish ?P ?s ?d ?p ?e ?env ?t] =>
        pose proof (finish_store P s d p e env t) as Hf;
        destruct (finish P s d p e env t) as [[? ?] ?]
    end; exact Hf.
Qed.

(** X17. A flow that runs to its end leaves no trace: when an accepted
    [/oauth/start] draws a state that is not pending, and a callback carrying
    that state is answered (relay page or not), [txns] is again what it was
    before the start. *)
Theorem completed_flow_restores_txns :
  forall (P : Platform) (penv : ProcessEnv) (provider target : string) (env0 : Env)
         (txns0 : Store) (p : Provider) (q : CallbackQuery) (env : Env) response,
    provider = "spotify" \/ provider = "google" ->
    Str.test_http_url target = true ->
    let state := env_randomHex env0 in
    txns0 !! state = None ->
    state <> "" ->
    q_state q = Some state ->
    let txns1 :=
      store_after (oauth_start penv {| q_provider := Some provider;
                                       q_redirect := Some target |} env0 txns0) in
    outcome (callback P penv p q env txns1) = Ok response ->
    store_after (callback P penv p q env txns1) = txns0.
Proof.
  intros P penv provider target env0 txns0 p q env response Hprov Hurl state Hfresh Hne Hq
    txns1 Hout.
  assert (present (q_state q) = true) as Hs.
  { rewrite Hq. cbn. by apply negb_true_iff, String.eqb_neq. }
  rewrite (answered_callback_consumes P penv p q env txns1 state response Hq Hs Hout).
  subst txns1. rewrite (oauth_start_valid_store penv provider target env0 txns0 Hprov Hurl).
  by apply delete_insert_id.
Qed.

Lemma completed_flow_restores_txns_witness :
  (Str.test_http_url "https://app.example.com/done" = true
   /\ Demo.pending !! "77c1" = None
   /\ outcome (callback Demo.platform Demo.penv Google
                 {| q_code := Some "AQB7"; q_state := Some "77c1"; q_error := None |}
                 DemoCallback.granting
                 (store_after (oauth_start Demo.penv
                                 {| q_provider := Some "google";
                                    q_redirect := Some "https://app.example.com/done" |}
                                 (Demo.quiet "77c1") Demo.pending)))
      = Ok (Respond 200
              (BRelay AuthSuccessful
                 (VObj [("provider", VStr "google"); ("token", VStr "BQDx")])
                 "https://app.example.com")))
  /\ store_after (callback Demo.platform Demo.penv Google
                    {| q_code := Some "AQB7"; q_state := Some "77c1"; q_error := None |}
                    DemoCallback.granting
                    (store_after (oauth_start Demo.penv
                                    {| q_provider := Some "google";
                                       q_redirect := Some "https://app.example.com/done" |}
                                    (Demo.quiet "77c1") Demo.pending)))
     = Demo.pending.
Proof.
  assert (Demo.pending !! "77c1" = None) as Hfresh by (by vm_compute).
  assert (outcome (callback Demo.platform Demo.penv Google
                 {| q_code := Some "AQB7"; q_state := Some "77c1"; q_error := None |}
                 DemoCallback.granting
                 (store_after (oauth_start Demo.penv
                                 {| q_provider := Some "google";
                                    q_redirect := Some "https://app.example.com/done" |}
                                 (Demo.quiet "77c1") Demo.pending)))
      = Ok (Respond 200
              (BRelay AuthSuccessful
                 (VObj [("provider", VStr "google"); ("token", VStr "BQDx")])
                 "https://app.example.com"))) as Hout by (by vm_compute).
  split; [by repeat split|].
  refine (completed_flow_restores_txns Demo.platform Demo.penv "google"
            "https://app.example.com/done" (Demo.quiet "77c1") Demo.pending Google
            {| q_code := Some "AQB7"; q_state := Some "77c1"; q_error := None |}
            DemoCallback.granting _ (or_intror eq_refl) eq_refl Hfresh _ eq_refl Hout).
  discriminate.
Defined.
